(** * GoGrid driver (libcloud/drivers/gogrid.py): a shallow embedding

    The development follows the source file top to bottom: the digest used
    by the request signer, the Python values that [json.loads] produces and
    the operations the driver applies to them, the response classifier
    ([GoGridResponse]), the signer ([GoGridConnection.get_signature]), the
    entity mapper and the node lifecycle operations of [GoGridNodeDriver]. *)

From Stdlib Require Import ZArith List String Ascii Bool Lia QArith.
From Stdlib Require Import Floats.SpecFloat.
From Stdlib Require Import DecimalString DecimalZ.
Import ListNotations.
Set Warnings "-register-all".
Open Scope string_scope.
Open Scope list_scope.
Open Scope Z_scope.

(** ** MD5 (RFC 1321), the digest behind [hashlib.md5]

    Words are 32-bit integers carried in [Z]; every addition is reduced modulo
    [2^32] and rotations are masked. *)
Module MD5.

Definition mask32 : Z := 0xFFFFFFFF.

Definition add32 (a b : Z) : Z := (a + b) mod 2 ^ 32.

Definition not32 (a : Z) : Z := Z.lxor a mask32.

Definition rotl32 (x n : Z) : Z :=
  Z.land (Z.lor (Z.shiftl x n) (Z.shiftr x (32 - n))) mask32.

(** [floor (2^32 * abs (sin (i + 1)))] for [i = 0 .. 63]. *)
Definition K : list Z :=
  [ 0xd76aa478; 0xe8c7b756; 0x242070db; 0xc1bdceee;
    0xf57c0faf; 0x4787c62a; 0xa8304613; 0xfd469501;
    0x698098d8; 0x8b44f7af; 0xffff5bb1; 0x895cd7be;
    0x6b901122; 0xfd987193; 0xa679438e; 0x49b40821;
    0xf61e2562; 0xc040b340; 0x265e5a51; 0xe9b6c7aa;
    0xd62f105d; 0x02441453; 0xd8a1e681; 0xe7d3fbc8;
    0x21e1cde6; 0xc33707d6; 0xf4d50d87; 0x455a14ed;
    0xa9e3e905; 0xfcefa3f8; 0x676f02d9; 0x8d2a4c8a;
    0xfffa3942; 0x8771f681; 0x6d9d6122; 0xfde5380c;
    0xa4beea44; 0x4bdecfa9; 0xf6bb4b60; 0xbebfbc70;
    0x289b7ec6; 0xeaa127fa; 0xd4ef3085; 0x04881d05;
    0xd9d4d039; 0xe6db99e5; 0x1fa27cf8; 0xc4ac5665;
    0xf4292244; 0x432aff97; 0xab9423a7; 0xfc93a039;
    0x655b59c3; 0x8f0ccc92; 0xffeff47d; 0x85845dd1;
    0x6fa87e4f; 0xfe2ce6e0; 0xa3014314; 0x4e0811a1;
    0xf7537e82; 0xbd3af235; 0x2ad7d2bb; 0xeb86d391 ].

(** Per-round left-rotation amounts. *)
Definition R : list Z :=
  [ 7; 12; 17; 22; 7; 12; 17; 22; 7; 12; 17; 22; 7; 12; 17; 22;
    5; 9; 14; 20; 5; 9; 14; 20; 5; 9; 14; 20; 5; 9; 14; 20;
    4; 11; 16; 23; 4; 11; 16; 23; 4; 11; 16; 23; 4; 11; 16; 23;
    6; 10; 15; 21; 6; 10; 15; 21; 6; 10; 15; 21; 6; 10; 15; 21 ].

Definition bytes_of_string (s : string) : list Z :=
  map (fun c => Z.of_N (N_of_ascii c)) (list_ascii_of_string s).

(** The 64-bit little-endian encoding of the message length in bits. *)
Definition length_bytes (bits : Z) : list Z :=
  map (fun i => Z.land (Z.shiftr bits (8 * Z.of_nat i)) 0xFF) (seq 0 8).

(** Padding: a [0x80] byte, zeros up to 56 modulo 64, then the length. *)
Definition pad (msg : list Z) : list Z :=
  let n := Z.of_nat (List.length msg) in
  let zeros := Z.to_nat ((55 - n) mod 64) in
  (msg ++ [0x80] ++ repeat 0 zeros ++ length_bytes (8 * n))%list.

Fixpoint words_of_bytes (bs : list Z) : list Z :=
  match bs with
  | b0 :: b1 :: b2 :: b3 :: rest =>
      (b0 + Z.shiftl b1 8 + Z.shiftl b2 16 + Z.shiftl b3 24)
        :: words_of_bytes rest
  | _ => []
  end.

Record state := mkState { sA : Z; sB : Z; sC : Z; sD : Z }.

Definition init : state :=
  mkState 0x67452301 0xefcdab89 0x98badcfe 0x10325476.

Definition round (M : list Z) (st : state) (i : nat) : state :=
  let '(mkState a b c d) := st in
  let zi := Z.of_nat i in
  let '(f, g) :=
    if zi <? 16 then (Z.lor (Z.land b c) (Z.land (not32 b) d), zi)
    else if zi <? 32 then
      (Z.lor (Z.land d b) (Z.land (not32 d) c), (5 * zi + 1) mod 16)
    else if zi <? 48 then (Z.lxor b (Z.lxor c d), (3 * zi + 5) mod 16)
    else (Z.lxor c (Z.lor b (not32 d)), (7 * zi) mod 16) in
  let f' := add32 (add32 (add32 f a) (nth i K 0)) (nth (Z.to_nat g) M 0) in
  mkState d (add32 b (rotl32 f' (nth i R 0))) b c.

Definition compress (st : state) (M : list Z) : state :=
  let st' := fold_left (round M) (seq 0 64) st in
  mkState (add32 (sA st) (sA st')) (add32 (sB st) (sB st'))
          (add32 (sC st) (sC st')) (add32 (sD st) (sD st')).

Fixpoint blocks (fuel : nat) (ws : list Z) : list (list Z) :=
  match fuel, ws with
  | S fuel', _ :: _ => firstn 16 ws :: blocks fuel' (skipn 16 ws)
  | _, _ => []
  end.

Definition digest_words (s : string) : state :=
  let ws := words_of_bytes (pad (bytes_of_string s)) in
  fold_left compress (blocks (List.length ws) ws) init.

Definition hex_digit (n : Z) : ascii :=
  nth (Z.to_nat n) (list_ascii_of_string "0123456789abcdef") "0"%char.

Definition hex_byte (b : Z) : list ascii :=
  [hex_digit (Z.shiftr b 4 mod 16); hex_digit (b mod 16)].

(** A word is written least significant byte first. *)
Definition hex_word (w : Z) : list ascii :=
  flat_map (fun i => hex_byte (Z.shiftr w (8 * Z.of_nat i) mod 256)) (seq 0 4).

(** [hashlib.md5(s).hexdigest()] *)
Definition hexdigest (s : string) : string :=
  let st := digest_words s in
  string_of_list_ascii
    (hex_word (sA st) ++ hex_word (sB st) ++ hex_word (sC st)
       ++ hex_word (sD st))%list.

End MD5.

(** ** Python values

    The objects [json.loads] returns: [None], booleans, integers, floats,
    text, lists and dictionaries keyed by text.  A dictionary is kept as an
    association list with pairwise distinct keys. *)
Inductive value : Type :=
| PyNone
| PyBool (b : bool)
| PyInt (z : Z)
| PyFloat (f : spec_float)
| PyStr (s : string)
| PyList (l : list value)
| PyDict (d : list (string * value)).

(** The exceptions that reach the driver.  [KeyError] carries the missing
    key; the three libcloud errors carry their [value] (and the raw body for
    a malformed reply); [PyException] is the bare [Exception(message)];
    [OtherError] stands for whatever else the transport may raise. *)
Inductive exn : Type :=
| KeyError (key : value)
| IndexError
| TypeError
| AttributeError
| ValueError
| InvalidCredsError (value : string)
| MalformedResponseError (value : string) (body : string)
| LibcloudError (value : string)
| PyException (message : value)
| OtherError (name : string).

Inductive result (A : Type) : Type :=
| Ok (a : A)
| Raise (e : exn).
Arguments Ok {A} a.
Arguments Raise {A} e.

Definition rbind {A B} (c : result A) (k : A -> result B) : result B :=
  match c with
  | Ok a => k a
  | Raise e => Raise e
  end.

Declare Scope result_scope.
Delimit Scope result_scope with result.
Notation "x <- c ;; k" := (rbind c (fun x => k))
  (at level 61, c at next level, right associativity) : result_scope.

(** [try: c  except <caught>: handler] *)
Definition try_except {A} (c : result A) (caught : exn -> bool)
    (handler : result A) : result A :=
  match c with
  | Ok a => Ok a
  | Raise e => if caught e then handler else Raise e
  end.

Definition is_ValueError (e : exn) : bool :=
  match e with ValueError => true | _ => false end.

Definition is_KeyError (e : exn) : bool :=
  match e with KeyError _ => true | _ => false end.

Definition is_InvalidCredsError (e : exn) : bool :=
  match e with InvalidCredsError _ => true | _ => false end.

(** A bare [except:] catches everything. *)
Definition any_exception (e : exn) : bool := true.

Fixpoint dict_lookup (k : string) (d : list (string * value)) : option value :=
  match d with
  | [] => None
  | (k', v) :: rest => if String.eqb k k' then Some v else dict_lookup k rest
  end.

(** [d[k] = v] on a dictionary keyed by text. *)
Fixpoint dict_store (k : string) (v : value) (d : list (string * value))
    : list (string * value) :=
  match d with
  | [] => [(k, v)]
  | (k', v') :: rest =>
      if String.eqb k k' then (k', v) :: rest
      else (k', v') :: dict_store k v rest
  end.

(** [v[k]] for a text key [k]. *)
Definition getitem (v : value) (k : string) : result value :=
  match v with
  | PyDict d =>
      match dict_lookup k d with
      | Some x => Ok x
      | None => Raise (KeyError (PyStr k))
      end
  | _ => Raise TypeError
  end.

(** [v[0]]: the first element of a list, the first character of a text;
    a dictionary decoded from JSON has no integer key. *)
Definition getitem0 (v : value) : result value :=
  match v with
  | PyList (x :: _) => Ok x
  | PyList [] => Raise IndexError
  | PyStr (String c _) => Ok (PyStr (String c EmptyString))
  | PyStr EmptyString => Raise IndexError
  | PyDict _ => Raise (KeyError (PyInt 0))
  | _ => Raise TypeError
  end.

(** [v.get(k)]: only dictionaries have the method. *)
Definition get (v : value) (k : string) : result value :=
  match v with
  | PyDict d =>
      match dict_lookup k d with
      | Some x => Ok x
      | None => Ok PyNone
      end
  | _ => Raise AttributeError
  end.

(** Truth value of an object, as tested by [if v:] and [not v]. *)
Definition truth (v : value) : bool :=
  match v with
  | PyNone => false
  | PyBool b => b
  | PyInt z => negb (z =? 0)
  | PyFloat (S754_zero _) => false
  | PyFloat _ => true
  | PyStr s => negb (String.eqb s "")
  | PyList l => match l with [] => false | _ => true end
  | PyDict d => match d with [] => false | _ => true end
  end.

Definition is_None (v : value) : bool :=
  match v with PyNone => true | _ => false end.

Definition hashable (v : value) : bool :=
  match v with PyList _ | PyDict _ => false | _ => true end.

(** Numbers are compared by exact value, whatever their type.  A non-zero
    finite value is kept as sign, odd mantissa and binary exponent, so that
    equal values have equal representations. *)
Inductive number : Type :=
| Zero
| Finite (negative : bool) (mantissa : positive) (exponent : Z)
| Infinite (negative : bool)
| NaN.

Fixpoint odd_part (m : positive) (e : Z) : positive * Z :=
  match m with
  | xO m' => odd_part m' (e + 1)
  | _ => (m, e)
  end.

Definition finite (negative : bool) (m : positive) (e : Z) : number :=
  let '(m', e') := odd_part m e in Finite negative m' e'.

Definition number_of_int (z : Z) : number :=
  match z with
  | Z0 => Zero
  | Zpos p => finite false p 0
  | Zneg p => finite true p 0
  end.

Definition number_of_float (f : spec_float) : number :=
  match f with
  | S754_zero _ => Zero
  | S754_infinity s => Infinite s
  | S754_nan => NaN
  | S754_finite s m e => finite s m e
  end.

(** Booleans are the integers 0 and 1. *)
Definition numeric (v : value) : option number :=
  match v with
  | PyBool b => Some (number_of_int (if b then 1 else 0))
  | PyInt z => Some (number_of_int z)
  | PyFloat f => Some (number_of_float f)
  | _ => None
  end.

(** NaN differs from every number, itself included. *)
Definition num_eq (a b : number) : bool :=
  match a, b with
  | Zero, Zero => true
  | Finite s m e, Finite s' m' e' =>
      Bool.eqb s s' && Pos.eqb m m' && Z.eqb e e'
  | Infinite s, Infinite s' => Bool.eqb s s'
  | _, _ => false
  end.

(** Container comparison and dictionary lookup test identity before
    equality.  Among decoded values this matters for the NaN constant only,
    which the decoder hands out as one shared object. *)
Definition same_object (a b : value) : bool :=
  match a, b with
  | PyFloat S754_nan, PyFloat S754_nan => true
  | _, _ => false
  end.

(** [a == b] *)
Fixpoint py_eq (a b : value) {struct a} : bool :=
  match a, b with
  | PyNone, PyNone => true
  | PyStr s, PyStr t => String.eqb s t
  | PyList l, PyList l' =>
      (fix items (l l' : list value) {struct l} : bool :=
         match l, l' with
         | [], [] => true
         | x :: xs, y :: ys => (same_object x y || py_eq x y) && items xs ys
         | _, _ => false
         end) l l'
  | PyDict d, PyDict d' =>
      Nat.eqb (List.length d) (List.length d') &&
      (fix entries (d : list (string * value)) {struct d} : bool :=
         match d with
         | [] => true
         | (k, x) :: rest =>
             match dict_lookup k d' with
             | Some y => (same_object x y || py_eq x y) && entries rest
             | None => false
             end
         end) d
  | _, _ =>
      match numeric a, numeric b with
      | Some x, Some y => num_eq x y
      | _, _ => false
      end
  end.

(** Key comparison inside a [dict]. *)
Definition key_eq (a b : value) : bool := same_object a b || py_eq a b.

(** The elements [for x in v] visits. *)
Definition py_iter (v : value) : result (list value) :=
  match v with
  | PyList l => Ok l
  | PyStr s =>
      Ok (map (fun c => PyStr (String c EmptyString)) (list_ascii_of_string s))
  | PyDict d => Ok (map (fun kv => PyStr (fst kv)) d)
  | _ => Raise TypeError
  end.

(** A [dict] built by the driver itself, keyed by arbitrary hashable
    values; insertion order is kept. *)
Definition pydict : Type := list (value * value).

Fixpoint pydict_find (k : value) (m : pydict) : option value :=
  match m with
  | [] => None
  | (k', v) :: rest => if key_eq k' k then Some v else pydict_find k rest
  end.

Fixpoint pydict_store (k v : value) (m : pydict) : pydict :=
  match m with
  | [] => [(k, v)]
  | (k', v') :: rest =>
      if key_eq k' k then (k', v) :: rest else (k', v') :: pydict_store k v rest
  end.

(** [m[k] = v] *)
Definition pydict_setitem (m : pydict) (k v : value) : result pydict :=
  if hashable k then Ok (pydict_store k v m) else Raise TypeError.

(** [m.get(k)] *)
Definition pydict_get (m : pydict) (k : value) : result value :=
  if hashable k then
    Ok (match pydict_find k m with Some v => v | None => PyNone end)
  else Raise TypeError.

(** ** A decoder for running the classifier on concrete bodies

    [json.loads] is a parameter of the classifier below, so that what is
    proved holds for the library's decoder.  [Json.loads] is a
    recursive-descent decoder for the fragment of JSON made of ASCII text
    without fractions, exponents and backslash escapes, on which it agrees
    with the library; it answers [ValueError] outside the fragment.  It is
    the decoder wherever a concrete body is evaluated, and every such body
    is in the fragment. *)
Module Json.

Definition is_ws (c : ascii) : bool :=
  match c with
  | " "%char | "009"%char | "010"%char | "013"%char => true
  | _ => false
  end.

Fixpoint skip_ws (s : list ascii) : list ascii :=
  match s with
  | c :: rest => if is_ws c then skip_ws rest else s
  | [] => []
  end.

Definition digit_of (c : ascii) : option Z :=
  let n := Z.of_N (N_of_ascii c) in
  if (48 <=? n) && (n <=? 57) then Some (n - 48) else None.

(** The text after an opening quote, up to the closing one. *)
Fixpoint scan_string (s : list ascii) : option (string * list ascii) :=
  match s with
  | [] => None
  | c :: rest =>
      if Ascii.eqb c "034"%char then Some (EmptyString, rest)
      else if Ascii.eqb c "\"%char then None
      else if Z.of_N (N_of_ascii c) <? 32 then None
      else match scan_string rest with
           | Some (t, rest') => Some (String c t, rest')
           | None => None
           end
  end.

Fixpoint scan_digits (acc : Z) (s : list ascii) : Z * list ascii :=
  match s with
  | c :: rest =>
      match digit_of c with
      | Some d => scan_digits (10 * acc + d) rest
      | None => (acc, s)
      end
  | [] => (acc, [])
  end.

(** An integer literal: an optional sign, then [0] or a digit string that
    does not start with [0]. *)
Definition scan_int (s : list ascii) : option (Z * list ascii) :=
  let '(neg, s1) :=
    match s with
    | "-"%char :: rest => (true, rest)
    | _ => (false, s)
    end in
  match s1 with
  | c :: rest =>
      match digit_of c with
      | Some 0 => Some (0, rest)
      | Some d =>
          let '(n, rest') := scan_digits d rest in
          Some (if neg then - n else n, rest')
      | None => None
      end
  | [] => None
  end.

Definition starts_fraction (s : list ascii) : bool :=
  match s with
  | "."%char :: _ | "e"%char :: _ | "E"%char :: _ => true
  | _ => false
  end.

Definition scanner : Type := list ascii -> option (value * list ascii).

(** The items of an array after the first, up to the closing bracket. *)
Fixpoint scan_items (scan : scanner) (fuel : nat) (acc : list value)
    (s : list ascii) : option (value * list ascii) :=
  match fuel with
  | O => None
  | S fuel' =>
      match skip_ws s with
      | "]"%char :: rest => Some (PyList (rev acc), rest)
      | ","%char :: rest =>
          match scan (skip_ws rest) with
          | Some (v, rest') => scan_items scan fuel' (v :: acc) rest'
          | None => None
          end
      | _ => None
      end
  end.

Definition scan_pair (scan : scanner) (s : list ascii)
    : option (string * value * list ascii) :=
  match s with
  | "034"%char :: rest =>
      match scan_string rest with
      | Some (k, rest1) =>
          match skip_ws rest1 with
          | ":"%char :: rest2 =>
              match scan (skip_ws rest2) with
              | Some (v, rest3) => Some (k, v, rest3)
              | None => None
              end
          | _ => None
          end
      | None => None
      end
  | _ => None
  end.

(** The pairs of an object after the first, up to the closing brace; a
    later occurrence of a key replaces the earlier one. *)
Fixpoint scan_pairs (scan : scanner) (fuel : nat)
    (acc : list (string * value)) (s : list ascii)
    : option (value * list ascii) :=
  match fuel with
  | O => None
  | S fuel' =>
      match skip_ws s with
      | "}"%char :: rest => Some (PyDict acc, rest)
      | ","%char :: rest =>
          match scan_pair scan (skip_ws rest) with
          | Some (k, v, rest') => scan_pairs scan fuel' (dict_store k v acc) rest'
          | None => None
          end
      | _ => None
      end
  end.

Fixpoint scan_value (fuel : nat) (s : list ascii)
    : option (value * list ascii) :=
  match fuel with
  | O => None
  | S fuel' =>
      match s with
      | "n"%char :: "u"%char :: "l"%char :: "l"%char :: rest =>
          Some (PyNone, rest)
      | "t"%char :: "r"%char :: "u"%char :: "e"%char :: rest =>
          Some (PyBool true, rest)
      | "f"%char :: "a"%char :: "l"%char :: "s"%char :: "e"%char :: rest =>
          Some (PyBool false, rest)
      | "034"%char :: rest =>
          match scan_string rest with
          | Some (t, rest') => Some (PyStr t, rest')
          | None => None
          end
      | "["%char :: rest =>
          match skip_ws rest with
          | "]"%char :: rest' => Some (PyList [], rest')
          | rest1 =>
              match scan_value fuel' rest1 with
              | Some (v, rest2) =>
                  scan_items (scan_value fuel') (List.length rest2) [v] rest2
              | None => None
              end
          end
      | "{"%char :: rest =>
          match skip_ws rest with
          | "}"%char :: rest' => Some (PyDict [], rest')
          | rest1 =>
              match scan_pair (scan_value fuel') rest1 with
              | Some (k, v, rest2) =>
                  scan_pairs (scan_value fuel') (List.length rest2)
                             [(k, v)] rest2
              | None => None
              end
          end
      | _ =>
          match scan_int s with
          | Some (n, rest) =>
              if starts_fraction rest then None else Some (PyInt n, rest)
          | None => None
          end
      end
  end.

Definition loads (body : string) : result value :=
  let s := list_ascii_of_string body in
  match scan_value (S (List.length s)) (skip_ws s) with
  | Some (v, rest) =>
      match skip_ws rest with
      | [] => Ok v
      | _ => Raise ValueError
      end
  | None => Raise ValueError
  end.

End Json.

(** Bodies are written with ['] where the wire has the double quote. *)
Definition wire (s : string) : string :=
  string_of_list_ascii
    (map (fun c => if Ascii.eqb c "'"%char then "034"%char else c)
         (list_ascii_of_string s)).

(** ** class GoGridResponse

    A raw response is its HTTP status and its body text.  The decoder
    [json_loads] raises [ValueError] on a body it cannot decode. *)
Record Response : Type := mkResponse { status : Z; body : string }.

Section GoGridResponse.

Variable json_loads : string -> result value.

Local Open Scope result_scope.

Definition success (self : Response) : result value :=
  if status self =? 403 then
    Raise (InvalidCredsError "Invalid credentials")
  else if status self =? 401 then
    Raise (InvalidCredsError "API Key has insufficient rights")
  else if negb (truth (PyStr (body self))) then
    Ok PyNone
  else
    try_except
      (decoded <- json_loads (body self) ;;
       field <- getitem decoded "status" ;;
       Ok (PyBool (py_eq field (PyStr "success"))))
      is_ValueError
      (Raise (MalformedResponseError "Malformed reply" (body self))).

Definition parse_body (self : Response) : result value :=
  if negb (truth (PyStr (body self))) then Ok PyNone
  else json_loads (body self).

Definition parse_error (self : Response) : result value :=
  try_except
    (decoded <- json_loads (body self) ;;
     entries <- getitem decoded "list" ;;
     first <- getitem0 entries ;;
     getitem first "message")
    is_ValueError
    (Ok PyNone).

End GoGridResponse.

(** ** class GoGridConnection: the request signature *)

(** [int(t)] truncates the clock reading toward zero. *)
Definition py_int (t : Q) : Z := Z.quot (Qnum t) (Z.pos (Qden t)).

(** [str(n)] for an integer. *)
Definition py_str (n : Z) : string := NilZero.string_of_int (Z.to_int n).

(** [get_signature(key, secret)], run when [time.time()] reads [now]. *)
Definition get_signature (now : Q) (key secret : string) : string :=
  MD5.hexdigest (key ++ secret ++ py_str (py_int now))%string.

(** ** class GoGridNodeDriver: the entity mapper *)

Inductive NodeState : Type :=
| RUNNING | REBOOTING | TERMINATED | PENDING | UNKNOWN.

Definition STATE : list (string * NodeState) :=
  [ ("Starting", PENDING);
    ("On", RUNNING);
    ("Off", PENDING);
    ("Restarting", REBOOTING);
    ("Saving", PENDING);
    ("Restoring", PENDING) ].

Fixpoint table_lookup (k : string) (t : list (string * NodeState))
    : option NodeState :=
  match t with
  | [] => None
  | (k', st) :: rest => if String.eqb k k' then Some st else table_lookup k rest
  end.

(** [STATE[k]]: a key that cannot be hashed is a [TypeError], a key that is
    not in the table a [KeyError]. *)
Definition STATE_getitem (k : value) : result NodeState :=
  if hashable k then
    match k with
    | PyStr s =>
        match table_lookup s STATE with
        | Some st => Ok st
        | None => Raise (KeyError k)
        end
    | _ => Raise (KeyError k)
    end
  else Raise TypeError.

(** [GoGridNode]: [id] is [PyNone] until the provider has allocated one;
    [extra] is a dictionary keyed by text. *)
Record Node : Type := mkNode {
  id : value;
  name : value;
  state : NodeState;
  public_ip : list value;
  private_ip : list value;
  extra : list (string * value)
}.

Definition set_extra (n : Node) (k : string) (v : value) : Node :=
  mkNode (id n) (name n) (state n) (public_ip n) (private_ip n)
         (dict_store k v (extra n)).

Section EntityMapper.

Local Open Scope result_scope.

Definition _get_state (element : value) : result NodeState :=
  try_except
    (st <- getitem element "state" ;;
     nm <- getitem st "name" ;;
     STATE_getitem nm)
    any_exception
    (Ok UNKNOWN).

Definition _get_ip (element : value) : result value :=
  ip <- get element "ip" ;;
  get ip "ip".

Definition _get_id (element : value) : result value :=
  get element "id".

(** [_to_node(element, password)]; the default [password=None] is passed
    as [PyNone]. *)
Definition _to_node (element password : value) : result Node :=
  state <- _get_state element ;;
  ip <- _get_ip element ;;
  id <- _get_id element ;;
  name <- getitem element "name" ;;
  ram <- get element "ram" ;;
  ram_name <- get ram "name" ;;
  sandbox <- getitem element "isSandbox" ;;
  let n :=
    mkNode id name state [ip] []
           [ ("ram", ram_name);
             ("isSandbox", PyBool (py_eq sandbox (PyStr "true"))) ] in
  Ok (if truth password then set_extra n "password" password else n).

End EntityMapper.

(** ** class GoGridNodeDriver: operations that talk to the provider

    Every call of [connection.request] and of [time.sleep] is recorded in a
    history, most recent event first.  The provider is a function of the
    history: applied to a history whose head is a request, it yields the
    [object] of the response to that request, or the exception the
    connection raises for it. *)
Inductive event : Type :=
| Request (path : string) (params : list (string * value)) (method : string)
| Sleep (seconds : Z).

Definition history : Type := list event.

Definition M (A : Type) : Type := history -> result A * history.

Definition ret {A} (a : A) : M A := fun h => (Ok a, h).

Definition bind {A B} (c : M A) (k : A -> M B) : M B :=
  fun h =>
    match c h with
    | (Ok a, h') => k a h'
    | (Raise e, h') => (Raise e, h')
    end.

Definition lift {A} (r : result A) : M A := fun h => (r, h).

(** [try: c  except <caught>: handler], around calls to the provider. *)
Definition try_exceptM {A} (c : M A) (caught : exn -> bool) (handler : M A)
    : M A :=
  fun h =>
    match c h with
    | (Ok a, h') => (Ok a, h')
    | (Raise e, h') => if caught e then handler h' else (Raise e, h')
    end.

Definition sleep (seconds : Z) : M unit :=
  fun h => (Ok tt, Sleep seconds :: h).

Declare Scope driver_scope.
Delimit Scope driver_scope with driver.
Notation "x <- c ;; k" := (bind c (fun x => k))
  (at level 61, c at next level, right associativity) : driver_scope.

(** The keyword arguments of [create_node].  [location] is the [id] of the
    location object when one is passed; [ex_description] and
    [ex_issandbox] are optional. *)
Record create_kwargs : Type := mkKwargs {
  kw_name : value;
  kw_image_id : value;
  kw_size_id : value;
  kw_location : option value;
  kw_ex_description : option value;
  kw_ex_issandbox : option bool
}.

(** [str(b).lower()] for a boolean. *)
Definition lower_str_bool (b : bool) : string :=
  if b then "true" else "false".

(** Two nodes match when their first public addresses are equal and the
    listed one has an identifier. *)
Definition list_getitem0 (l : list value) : result value :=
  match l with
  | x :: _ => Ok x
  | [] => Raise IndexError
  end.

Definition matches (node i : Node) : result bool :=
  (a <- list_getitem0 (public_ip i) ;;
   b <- list_getitem0 (public_ip node) ;;
   Ok (py_eq a b && negb (is_None (id i))))%result.

(** [for i in nodes: if <matches>: return i] *)
Fixpoint first_match (node : Node) (nodes : list Node) : result (option Node) :=
  match nodes with
  | [] => Ok None
  | i :: rest =>
      (hit <- matches node i ;;
       if hit : bool then Ok (Some i) else first_match node rest)%result
  end.

(** In [create_node] the name [id] is bound neither as a local nor as a
    parameter: it is the builtin function, which is not [None]. *)
Definition builtin_id_is_None : bool := false.

(** The [params] of [_get_first_ip]: [datacenter] is added when a location
    is given. *)
Definition ip_list_params (location : option value) : list (string * value) :=
  [ ("ip.state", PyStr "Unassigned"); ("ip.type", PyStr "public") ]
    ++ match location with
       | Some location_id => [("datacenter", location_id)]
       | None => []
       end.

Definition timeout : Z := 60 * 20.
Definition interval : Z := 2 * 60.

Section GoGridNodeDriver.

Variable provider : history -> result value.

(** [Node.__str__], used only to format the text of an exception. *)
Variable str_Node : Node -> string.

Definition request (path : string) (params : list (string * value))
    (method : string) : M value :=
  fun h =>
    let h' := Request path params method :: h in
    (provider h', h').

Definition _server_list : M value :=
  request "/api/grid/server/list" [] "GET".

Definition _password_list : M value :=
  request "/api/support/password/list" [] "GET".

(** One turn of the inner loop of [list_nodes]:
    [try: passwords_map[password['server']['id']] = password['password']]
    [except KeyError: pass].  The right-hand side is evaluated first. *)
Definition record_password (passwords_map : pydict) (password : value)
    : result pydict :=
  try_except
    (pw <- getitem password "password" ;;
     server <- getitem password "server" ;;
     server_id <- getitem server "id" ;;
     pydict_setitem passwords_map server_id pw)%result
    is_KeyError
    (Ok passwords_map).

Fixpoint record_passwords (passwords_map : pydict) (passwords : list value)
    : result pydict :=
  match passwords with
  | [] => Ok passwords_map
  | password :: rest =>
      (m <- record_password passwords_map password ;;
       record_passwords m rest)%result
  end.

(** [[f(el) for el in els]] *)
Fixpoint comprehension {A B} (f : A -> result B) (els : list A)
    : result (list B) :=
  match els with
  | [] => Ok []
  | el :: rest =>
      (x <- f el ;;
       xs <- comprehension f rest ;;
       Ok (x :: xs))%result
  end.

(** The body of the outer [try] of [list_nodes] once the password list is
    fetched: [for password in <passwords>['list']: ...], from the empty
    map. *)
Definition fill_passwords_map (passwords : value) : result pydict :=
  (entries <- getitem passwords "list" ;;
   items <- py_iter entries ;;
   record_passwords [] items)%result.

(** The [return] of [list_nodes]:
    [[self._to_node(el, passwords_map.get(el.get('id'))) for el in res['list']]] *)
Definition to_nodes (res : value) (passwords_map : pydict)
    : result (list Node) :=
  (servers <- getitem res "list" ;;
   els <- py_iter servers ;;
   comprehension
     (fun el =>
        el_id <- get el "id" ;;
        password <- pydict_get passwords_map el_id ;;
        _to_node el password)
     els)%result.

(** Only the fetch itself can raise [InvalidCredsError], and it does so
    before anything is stored, so the handler resumes with the empty map. *)
Definition list_nodes : M (list Node) :=
  (res <- _server_list ;;
   passwords_map <-
     try_exceptM
       (passwords <- _password_list ;;
        lift (fill_passwords_map passwords))
       is_InvalidCredsError
       (ret []) ;;
   lift (to_nodes res passwords_map))%driver.

Definition _get_first_ip (location : option value) : M value :=
  (let params := ip_list_params location in
   object <- request "/api/grid/ip/list" params "GET" ;;
   lift (ips <- getitem object "list" ;;
         if truth ips then
           (ips' <- getitem object "list" ;;
            first <- getitem0 ips' ;;
            getitem first "ip")
         else Raise (LibcloudError "No public unassigned IPs left"))%result
  )%driver.

Definition ex_create_node_nowait (kwargs : create_kwargs) : M Node :=
  (first_ip <- _get_first_ip (kw_location kwargs) ;;
   let params :=
     [ ("name", kw_name kwargs);
       ("image", kw_image_id kwargs);
       ("description",
        match kw_ex_description kwargs with
        | Some d => d
        | None => PyStr ""
        end);
       ("isSandbox",
        PyStr (lower_str_bool
                 (match kw_ex_issandbox kwargs with
                  | Some b => b
                  | None => false
                  end)));
       ("server.ram", kw_size_id kwargs);
       ("ip", first_ip) ] in
   object <- request "/api/grid/server/add" params "POST" ;;
   lift (servers <- getitem object "list" ;;
         first <- getitem0 servers ;;
         _to_node first PyNone)%result)%driver.

(** The polling loop of [create_node] and what follows it.  [fuel] bounds
    the number of turns; [None] means the bound was reached. *)
Fixpoint wait_for_id (fuel : nat) (node : Node) (waittime : Z) (h : history)
    : option (result Node * history) :=
  if is_None (id node) && (waittime <? timeout) then
    match fuel with
    | O => None
    | S fuel' =>
        match list_nodes h with
        | (Raise e, h1) => Some (Raise e, h1)
        | (Ok nodes, h1) =>
            match first_match node nodes with
            | Raise e => Some (Raise e, h1)
            | Ok (Some i) => Some (Ok i, h1)
            | Ok None =>
                match sleep interval h1 with
                | (_, h2) => wait_for_id fuel' node (waittime + interval) h2
                end
            end
        end
    end
  else if builtin_id_is_None then
    Some (Raise (PyException
                   (PyStr ("Wasn't able to wait for id allocation for the node "
                             ++ str_Node node)%string)), h)
  else Some (Ok node, h).

(** [create_node]; the loop starts with [waittime = 0] and adds
    [interval] per turn, so [timeout / interval] turns are enough. *)
Definition create_node (kwargs : create_kwargs) (h : history)
    : option (result Node * history) :=
  match ex_create_node_nowait kwargs h with
  | (Raise e, h1) => Some (Raise e, h1)
  | (Ok node, h1) => wait_for_id (Z.to_nat (timeout / interval)) node 0 h1
  end.

End GoGridNodeDriver.

(** ** class GoGridConnection: the mandated query parameters

    [add_default_params] stores four entries in the caller's [params]:
    the account identifier, the API version, the format and the signature.
    [user_id] and [key] are the connection's credentials, [now] is what
    [time.time()] reads when the signature is made. *)
Definition API_VERSION : string := "1.5".

Section GoGridConnection.

Variable user_id : string.
Variable key : string.
Variable now : Q.

Definition add_default_params (params : list (string * value))
    : list (string * value) :=
  let params := dict_store "api_key" (PyStr user_id) params in
  let params := dict_store "v" (PyStr API_VERSION) params in
  let params := dict_store "format" (PyStr "json") params in
  let params := dict_store "sig" (PyStr (get_signature now user_id key)) params in
  params.

End GoGridConnection.

(** ** class GoGridNodeDriver: images and locations *)

Record NodeImage : Type := mkNodeImage {
  image_id : value;
  image_name : value
}.

Record NodeLocation : Type := mkNodeLocation {
  location_id : value;
  location_name : value;
  location_country : string
}.

Definition _to_image (element : value) : result NodeImage :=
  (i <- getitem element "id" ;;
   n <- getitem element "friendlyName" ;;
   Ok (mkNodeImage i n))%result.

Definition _to_images (object : value) : result (list NodeImage) :=
  (entries <- getitem object "list" ;;
   els <- py_iter entries ;;
   comprehension _to_image els)%result.

Definition _to_location (element : value) : result NodeLocation :=
  (i <- getitem element "id" ;;
   n <- getitem element "name" ;;
   Ok (mkNodeLocation i n "US"))%result.

Definition _to_locations (object : value) : result (list NodeLocation) :=
  (entries <- getitem object "list" ;;
   els <- py_iter entries ;;
   comprehension _to_location els)%result.

(** [l[0]] on a list the driver built itself. *)
Definition images_getitem0 (l : list NodeImage) : result NodeImage :=
  match l with
  | x :: _ => Ok x
  | [] => Raise IndexError
  end.

Section GoGridNodeDriverImages.

Variable provider : history -> result value.

(** [list_images(location)]; [location] is the [id] of the location object
    when one is passed. *)
Definition list_images (location : option value) : M (list NodeImage) :=
  (let params :=
     match location with
     | Some location_id => dict_store "datacenter" location_id []
     | None => []
     end in
   object <- request provider "/api/grid/image/list" params "GET" ;;
   lift (_to_images object))%driver.

Definition list_locations : M (list NodeLocation) :=
  (object <- request provider "/api/common/lookup/list"
               [("lookup", PyStr "ip.datacenter")] "GET" ;;
   lift (_to_locations object))%driver.

(** [ex_save_image(node, name)]: every record of the answer is mapped
    before the first image is taken. *)
Definition ex_save_image (node : Node) (name : value) : M NodeImage :=
  (let params := [("server", id node); ("friendlyName", name)] in
   object <- request provider "/api/grid/image/save" params "POST" ;;
   lift (images <- _to_images object ;;
         images_getitem0 images)%result)%driver.

End GoGridNodeDriverImages.

(** ** class GoGridNodeDriver: reboot and destroy

    These two operations keep the response itself and classify it with
    [success] and [parse_error].  [transport], applied to a history whose
    head is a request, yields the response to that request, or the
    exception the connection raises for it. *)
Section GoGridNodeDriverPower.

Variable json_loads : string -> result value.
Variable transport : history -> result Response.

Definition request_response (path : string) (params : list (string * value))
    (method : string) : M Response :=
  fun h =>
    let h' := Request path params method :: h in
    (transport h', h').

Definition _server_power (server_id : value) (power : string) : M Response :=
  request_response "/api/grid/server/power"
    [("id", server_id); ("power", PyStr power)] "POST".

Definition _server_delete (server_id : value) : M Response :=
  request_response "/api/grid/server/delete" [("id", server_id)] "POST".

(** [if not res.success(): raise Exception(res.parse_error())]
    [return True] *)
Definition reboot_node (node : Node) : M value :=
  (let server_id := id node in
   let power := "restart" in
   res <- _server_power server_id power ;;
   ok <- lift (success json_loads res) ;;
   if negb (truth ok) then
     (message <- lift (parse_error json_loads res) ;;
      lift (Raise (PyException message)))
   else ret (PyBool true))%driver.

Definition destroy_node (node : Node) : M value :=
  (let server_id := id node in
   res <- _server_delete server_id ;;
   ok <- lift (success json_loads res) ;;
   if negb (truth ok) then
     (message <- lift (parse_error json_loads res) ;;
      lift (Raise (PyException message)))
   else ret (PyBool true))%driver.

End GoGridNodeDriverPower.

(** ** A scripted provider, for running the driver on concrete exchanges

    It answers the k-th request of a history with the k-th entry of a
    script, whatever the request; once the script is used up it raises. *)
Definition is_request (e : event) : bool :=
  match e with
  | Request _ _ _ => true
  | Sleep _ => false
  end.

Definition scripted (script : list (result value)) : history -> result value :=
  fun h =>
    nth (List.length (filter is_request h) - 1) script
        (Raise (OtherError "script exhausted")).

(** A server record as the provider lists it; [id_field] is empty while
    the identifier is not allocated yet. *)
Definition server_record (id_field : list (string * value))
    (name ip state_name : string) : value :=
  PyDict (id_field
            ++ [ ("name", PyStr name);
                 ("ip", PyDict [("ip", PyStr ip)]);
                 ("ram", PyDict [("name", PyStr "512MB")]);
                 ("isSandbox", PyStr "false");
                 ("state", PyDict [("name", PyStr state_name)]) ]).

Definition envelope (records : list value) : value :=
  PyDict [("list", PyList records)].

Definition password_record (server_id : Z) (password : string) : value :=
  PyDict [ ("server", PyDict [("id", PyInt server_id)]);
           ("password", PyStr password) ].

(** The keyword arguments used in the concrete runs below. *)
Definition sample_kwargs : create_kwargs :=
  mkKwargs (PyStr "web") (PyInt 1531) (PyStr "512MB") None None None.

(** A provider that hands out an address and accepts the new server, but
    never allocates its identifier: every server listing shows the record
    without an [id]. *)
Definition stalled_provider (h : history) : result value :=
  match h with
  | Request path _ _ :: _ =>
      if String.eqb path "/api/grid/ip/list" then
        Ok (envelope [PyDict [("ip", PyStr "208.113.0.7")]])
      else if String.eqb path "/api/grid/server/add" then
        Ok (envelope [server_record [] "web" "208.113.0.7" "Starting"])
      else if String.eqb path "/api/grid/server/list" then
        Ok (envelope [server_record [] "web" "208.113.0.7" "Starting"])
      else if String.eqb path "/api/support/password/list" then
        Ok (envelope [])
      else Raise (OtherError "unknown path")
  | _ => Raise (OtherError "no request")
  end.

Definition is_sleep (e : event) : bool :=
  match e with
  | Sleep _ => true
  | Request _ _ _ => false
  end.

Definition is_server_list (e : event) : bool :=
  match e with
  | Request path _ _ => String.eqb path "/api/grid/server/list"
  | Sleep _ => false
  end.

(** ** The turns of the polling loop

    [poll_reaches provider node w h w' h']: started with [waittime = w] and
    history [h], the loop of [create_node] comes to test its condition with
    [waittime = w'] and history [h'], every turn in between having listed
    the nodes without finding a match. *)
Inductive poll_reaches (provider : history -> result value) (node : Node)
    : Z -> history -> Z -> history -> Prop :=
| reaches_here : forall w h, poll_reaches provider node w h w h
| reaches_retry : forall w h nodes h1 w' h',
    id node = PyNone ->
    w < timeout ->
    list_nodes provider h = (Ok nodes, h1) ->
    first_match node nodes = Ok None ->
    poll_reaches provider node (w + interval) (Sleep interval :: h1) w' h' ->
    poll_reaches provider node w h w' h'.

(** ** What a password list says about an identifier

    [password_entry] is the pair a password record contributes to the map,
    its server identifier and its password, when it has both fields;
    [correlated k records] is the password of the last record of the list
    whose server identifier equals [k]. *)
Definition password_entry (record : value) : option (value * value) :=
  match getitem record "password",
        rbind (getitem record "server") (fun server => getitem server "id")
  with
  | Ok pw, Ok server_id => Some (server_id, pw)
  | _, _ => None
  end.

Fixpoint correlated (k : value) (records : list value) : option value :=
  match records with
  | [] => None
  | record :: rest =>
      match correlated k rest with
      | Some pw => Some pw
      | None =>
          match password_entry record with
          | Some (server_id, pw) => if key_eq server_id k then Some pw else None
          | None => None
          end
      end
  end.

(** ** Notions used by the statements and proofs below *)

(** The texts of a given length over the hexadecimal digits. *)
Definition hex_alphabet : list ascii :=
  list_ascii_of_string "0123456789abcdef".

Fixpoint words (n : nat) : list (list ascii) :=
  match n with
  | O => [[]]
  | S n' => flat_map (fun w => map (fun c => c :: w) hex_alphabet) (words n')
  end.

(** The canonical key of a hashable value: [None], the exact numeric value,
    or the text. *)
Inductive canonical_key : Type :=
| KNone
| KNum (x : number)
| KStr (s : string).

Definition canonical (v : value) : option canonical_key :=
  match v with
  | PyNone => Some KNone
  | PyStr s => Some (KStr s)
  | PyList _ | PyDict _ => None
  | _ => option_map KNum (numeric v)
  end.

Definition keys_hashable (m : pydict) : Prop :=
  Forall (fun kv => hashable (fst kv) = true) m.

(** The errors a lookup, an iteration or a dictionary store can raise. *)
Definition lookup_error (e : exn) : bool :=
  match e with
  | KeyError _ | IndexError | TypeError | AttributeError => true
  | _ => false
  end.

Definition raises_lookup_error {A} (r : result A) : Prop :=
  forall e, r = Raise e -> lookup_error e = true.

(** The time slept and the server listings requested over a history. *)
Fixpoint slept (h : history) : Z :=
  match h with
  | [] => 0
  | Sleep s :: rest => s + slept rest
  | Request _ _ _ :: rest => slept rest
  end.

Definition polls (h : history) : nat :=
  List.length (filter is_server_list h).

(** The keys of a dictionary keyed by text. *)
Definition dict_keys (d : list (string * value)) : list string := map fst d.

(** The [params] of the provisioning request of [ex_create_node_nowait],
    once the address is known. *)
Definition server_add_params (kwargs : create_kwargs) (first_ip : value)
    : list (string * value) :=
  [ ("name", kw_name kwargs);
    ("image", kw_image_id kwargs);
    ("description",
     match kw_ex_description kwargs with
     | Some d => d
     | None => PyStr ""
     end);
    ("isSandbox",
     PyStr (lower_str_bool
              (match kw_ex_issandbox kwargs with
               | Some b => b
               | None => false
               end)));
    ("server.ram", kw_size_id kwargs);
    ("ip", first_ip) ].

Definition is_dict (v : value) : bool :=
  match v with PyDict _ => true | _ => false end.

(** [provider_raised provider h0 h' e]: a run started with history [h0]
    ended with history [h'] on a request of its own, for which the provider
    raised [e]. *)
Definition provider_raised (provider : history -> result value)
    (h0 h' : history) (e : exn) : Prop :=
  exists path params method made,
    h' = Request path params method :: (made ++ h0)%list
    /\ provider h' = Raise e.

(** The history after each of the two requests of [list_nodes]. *)
Definition after_server_list (h : history) : history :=
  Request "/api/grid/server/list" [] "GET" :: h.

Definition after_password_list (h : history) : history :=
  Request "/api/support/password/list" [] "GET" :: after_server_list h.

(** * Properties *)

(** ** Sample evaluations *)

Example md5_empty : MD5.hexdigest "" = "d41d8cd98f00b204e9800998ecf8427e".
Proof. vm_compute. reflexivity. Qed.

Example md5_abc : MD5.hexdigest "abc" = "900150983cd24fb0d6963f7d28e17f72".
Proof. vm_compute. reflexivity. Qed.

Example md5_two_blocks :
  MD5.hexdigest
    "12345678901234567890123456789012345678901234567890123456789012345678901234567890"
  = "57edf4a22be3c955ac49da2e2107b67a".
Proof. vm_compute. reflexivity. Qed.

Example eq_int_bool : py_eq (PyInt 1) (PyBool true) = true.
Proof. reflexivity. Qed.

Example eq_int_float :
  py_eq (PyInt 6) (PyFloat (S754_finite false 3 1)) = true.
Proof. reflexivity. Qed.

Example eq_nan : py_eq (PyFloat S754_nan) (PyFloat S754_nan) = false.
Proof. reflexivity. Qed.

Example eq_nan_in_list :
  py_eq (PyList [PyFloat S754_nan]) (PyList [PyFloat S754_nan]) = true.
Proof. reflexivity. Qed.

Example eq_str_int : py_eq (PyStr "1") (PyInt 1) = false.
Proof. reflexivity. Qed.

Example eq_dict_order :
  py_eq (PyDict [("a", PyInt 1); ("b", PyNone)])
        (PyDict [("b", PyNone); ("a", PyInt 1)]) = true.
Proof. reflexivity. Qed.

Example loads_envelope :
  Json.loads (wire "{'list': [{'id': 7, 'name': 'a'}, null], 'status' : 'success'}")
  = Ok (PyDict [("list", PyList [PyDict [("id", PyInt 7); ("name", PyStr "a")];
                                 PyNone]);
                ("status", PyStr "success")]).
Proof. vm_compute. reflexivity. Qed.

Example loads_empty : Json.loads "" = Raise ValueError.
Proof. reflexivity. Qed.

Example loads_trailing : Json.loads "{} x" = Raise ValueError.
Proof. reflexivity. Qed.

Example loads_html : Json.loads "<html>503</html>" = Raise ValueError.
Proof. reflexivity. Qed.

Example py_str_samples :
  (py_str 0, py_str 1262304000, py_str (-45)) = ("0", "1262304000", "-45").
Proof. reflexivity. Qed.

Example py_int_samples :
  (py_int (1262304000.75)%Q, py_int (-0.5)%Q, py_int (-3.5)%Q)
  = (1262304000, 0, -3).
Proof. reflexivity. Qed.

Example signature_sample :
  get_signature (1262304000.75)%Q "user" "secret"
  = MD5.hexdigest "usersecret1262304000".
Proof. vm_compute. reflexivity. Qed.

(** ** The response classifier *)

Section ClassifierProperties.

Variable json_loads : string -> result value.

Lemma truth_body (b : string) : truth (PyStr b) = negb (String.eqb b "").
Proof. reflexivity. Qed.

Lemma success_403 (self : Response) :
  status self = 403 ->
  success json_loads self = Raise (InvalidCredsError "Invalid credentials").
Proof. intros E. unfold success. rewrite E. reflexivity. Qed.

Lemma success_401 (self : Response) :
  status self = 401 ->
  success json_loads self
  = Raise (InvalidCredsError "API Key has insufficient rights").
Proof. intros E. unfold success. rewrite E. reflexivity. Qed.

(** Past the two status tests and the empty-body test, [success] is its
    [try] block. *)
Lemma success_decoding (self : Response) :
  status self <> 403 -> status self <> 401 -> body self <> "" ->
  success json_loads self
  = try_except
      (rbind (json_loads (body self)) (fun decoded =>
       rbind (getitem decoded "status") (fun field =>
       Ok (PyBool (py_eq field (PyStr "success"))))))
      is_ValueError
      (Raise (MalformedResponseError "Malformed reply" (body self))).
Proof.
  intros H403 H401 Hbody. unfold success.
  destruct (Z.eqb_spec (status self) 403) as [|_]; [contradiction|].
  destruct (Z.eqb_spec (status self) 401) as [|_]; [contradiction|].
  rewrite truth_body.
  destruct (String.eqb_spec (body self) "") as [|_]; [contradiction|].
  reflexivity.
Qed.

Lemma success_empty_body (self : Response) :
  status self <> 403 -> status self <> 401 -> body self = "" ->
  success json_loads self = Ok PyNone.
Proof.
  intros H403 H401 Hbody. unfold success.
  destruct (Z.eqb_spec (status self) 403) as [|_]; [contradiction|].
  destruct (Z.eqb_spec (status self) 401) as [|_]; [contradiction|].
  rewrite Hbody. reflexivity.
Qed.

End ClassifierProperties.

(** C4: [success] classifies a raw response in this order: status 403 raises
    the authentication error with the invalid-credentials message; status
    401 raises it with the insufficient-rights message; otherwise an empty
    body gives [None] without raising; otherwise a body the decoder rejects
    raises the malformed-response error carrying the body text; otherwise
    the result is [True] exactly when the decoded body has a [status] field
    equal to the text [success]. *)
Theorem success_classification :
  forall (json_loads : string -> result value) (self : Response),
    (status self = 403 ->
     success json_loads self = Raise (InvalidCredsError "Invalid credentials"))
    /\ (status self = 401 ->
        success json_loads self
        = Raise (InvalidCredsError "API Key has insufficient rights"))
    /\ (status self <> 403 -> status self <> 401 -> body self = "" ->
        success json_loads self = Ok PyNone)
    /\ (status self <> 403 -> status self <> 401 -> body self <> "" ->
        json_loads (body self) = Raise ValueError ->
        success json_loads self
        = Raise (MalformedResponseError "Malformed reply" (body self)))
    /\ (status self <> 403 -> status self <> 401 -> body self <> "" ->
        forall decoded, json_loads (body self) = Ok decoded ->
          (success json_loads self = Ok (PyBool true)
           <-> exists field, getitem decoded "status" = Ok field
                             /\ py_eq field (PyStr "success") = true)).
Proof.
  intros json_loads self.
  split; [apply success_403|].
  split; [apply success_401|].
  split; [apply success_empty_body|].
  split.
  - intros H403 H401 Hbody Hdec.
    rewrite success_decoding by assumption. rewrite Hdec. reflexivity.
  - intros H403 H401 Hbody decoded Hdec.
    rewrite success_decoding by assumption. rewrite Hdec. simpl.
    destruct (getitem decoded "status") as [field|e] eqn:Hfield; simpl.
    + split.
      * intros [= Heq]. exists field. split; [reflexivity|assumption].
      * intros (field' & [= <-] & Heq). rewrite Heq. reflexivity.
    + split.
      * destruct (is_ValueError e); discriminate.
      * intros (field & Hcontra & _). discriminate.
Qed.

(** A run of C4 on the decoder of this file: each of the five outcomes. *)
Lemma success_classification_witness :
  success Json.loads (mkResponse 403 "") = Raise (InvalidCredsError "Invalid credentials")
  /\ success Json.loads (mkResponse 401 "{}")
     = Raise (InvalidCredsError "API Key has insufficient rights")
  /\ success Json.loads (mkResponse 200 "") = Ok PyNone
  /\ success Json.loads (mkResponse 200 "<html>") 
     = Raise (MalformedResponseError "Malformed reply" "<html>")
  /\ success Json.loads (mkResponse 200 (wire "{'status': 'success'}"))
     = Ok (PyBool true).
Proof.
  split; [apply (success_classification Json.loads (mkResponse 403 "")); reflexivity|].
  split; [apply (success_classification Json.loads (mkResponse 401 "{}")); reflexivity|].
  split; [apply (success_classification Json.loads (mkResponse 200 ""));
          (discriminate || reflexivity)|].
  split; [apply (success_classification Json.loads (mkResponse 200 "<html>"));
          (discriminate || reflexivity)|].
  pose proof (success_classification Json.loads
                (mkResponse 200 (wire "{'status': 'success'}"))) as H.
  destruct H as (_ & _ & _ & _ & H).
  apply (H ltac:(discriminate) ltac:(discriminate) ltac:(discriminate)
           (PyDict [("status", PyStr "success")]) eq_refl).
  exists (PyStr "success"). split; reflexivity.
Defined.

(** C10: when the status is neither 401 nor 403 and the non-empty body
    decodes to a dictionary without a [status] key, [success] raises the
    [KeyError] of that lookup: it is not caught, and no result is returned. *)
Theorem success_missing_status :
  forall (json_loads : string -> result value) (self : Response)
         (d : list (string * value)),
    status self <> 401 -> status self <> 403 -> body self <> "" ->
    json_loads (body self) = Ok (PyDict d) ->
    dict_lookup "status" d = None ->
    success json_loads self = Raise (KeyError (PyStr "status")).
Proof.
  intros json_loads self d H401 H403 Hbody Hdec Hmiss.
  rewrite success_decoding by assumption.
  rewrite Hdec. simpl. rewrite Hmiss. reflexivity.
Qed.

Lemma success_missing_status_witness :
  success Json.loads (mkResponse 200 (wire "{'list': [{'id': 1}]}"))
  = Raise (KeyError (PyStr "status")).
Proof.
  apply (success_missing_status Json.loads
           (mkResponse 200 (wire "{'list': [{'id': 1}]}"))
           [("list", PyList [PyDict [("id", PyInt 1)]])]);
    (discriminate || reflexivity).
Defined.

(** C3, as the spec states it, fails: a body that decodes but lacks the path
    [list], [0], [message] makes [parse_error] raise.  Three bodies the
    claim names: no [list] field, an empty [list], a first entry without
    [message]. *)
Lemma parse_error_raises :
  parse_error Json.loads (mkResponse 500 "{}") = Raise (KeyError (PyStr "list"))
  /\ parse_error Json.loads (mkResponse 500 (wire "{'list': []}"))
     = Raise IndexError
  /\ parse_error Json.loads (mkResponse 500 (wire "{'list': [{'id': 3}]}"))
     = Raise (KeyError (PyStr "message")).
Proof. repeat split; vm_compute; reflexivity. Qed.

(** C3, amended: [parse_error] returns [None] when the decoder rejects the
    body with [ValueError]; on a decoded body it is the lookup
    [list], [0], [message] with nothing caught, so it returns the first list
    entry's message when that path exists and raises the lookup's own error
    otherwise; in no case does it raise [ValueError] unless a lookup could,
    and none can. *)
Theorem parse_error_spec :
  forall (json_loads : string -> result value) (self : Response),
    (json_loads (body self) = Raise ValueError ->
     parse_error json_loads self = Ok PyNone)
    /\ (forall decoded, json_loads (body self) = Ok decoded ->
        parse_error json_loads self
        = rbind (getitem decoded "list") (fun entries =>
          rbind (getitem0 entries) (fun first => getitem first "message")))
    /\ (forall decoded first rest message,
        json_loads (body self) = Ok decoded ->
        getitem decoded "list" = Ok (PyList (first :: rest)) ->
        getitem first "message" = Ok message ->
        parse_error json_loads self = Ok message)
    /\ parse_error json_loads self <> Raise ValueError.
Proof.
  intros json_loads self. unfold parse_error.
  assert (Hlookup : forall decoded,
             rbind (getitem decoded "list") (fun entries =>
             rbind (getitem0 entries) (fun first => getitem first "message"))
             <> Raise ValueError).
  { intros decoded. unfold getitem at 1.
    destruct decoded as [| | | | |l|d]; simpl; try discriminate.
    destruct (dict_lookup "list" d) as [entries|]; simpl; [|discriminate].
    destruct entries as [| | | |s|l|d']; simpl; try discriminate.
    - destruct s; simpl; discriminate.
    - destruct l as [|first rest]; simpl; [discriminate|].
      destruct first; simpl; try discriminate.
      match goal with |- context [dict_lookup ?k ?m] =>
        destruct (dict_lookup k m) end; discriminate. }
  repeat split.
  - intros ->. reflexivity.
  - intros decoded ->. simpl.
    match goal with |- try_except ?c _ _ = _ =>
      pose proof (Hlookup decoded) as Hne; destruct c as [v|e] eqn:E end.
    + reflexivity.
    + simpl. destruct e; try reflexivity. contradiction.
  - intros decoded first rest message -> Hlist Hmsg. simpl.
    rewrite Hlist. simpl. rewrite Hmsg. reflexivity.
  - destruct (json_loads (body self)) as [decoded|e] eqn:Hdec; simpl.
    + match goal with |- try_except ?c _ _ <> _ =>
        pose proof (Hlookup decoded) as Hne; destruct c as [v|e] eqn:E end.
      * discriminate.
      * simpl. destruct e; discriminate.
    + destruct e; simpl; discriminate.
Qed.

Lemma parse_error_spec_witness :
  parse_error Json.loads (mkResponse 500 "") = Ok PyNone
  /\ parse_error Json.loads
       (mkResponse 500 (wire "{'list': [{'message': 'No such server'}]}"))
     = Ok (PyStr "No such server").
Proof.
  split.
  - apply (parse_error_spec Json.loads (mkResponse 500 "")). reflexivity.
  - pose proof (parse_error_spec Json.loads
        (mkResponse 500 (wire "{'list': [{'message': 'No such server'}]}")))
      as (_ & _ & H & _).
    apply (H (PyDict [("list", PyList [PyDict [("message", PyStr "No such server")]])])
             (PyDict [("message", PyStr "No such server")]) []);
      reflexivity.
Defined.

(** ** The node state mapper *)

Lemma table_lookup_STATE (s : string) :
  table_lookup s STATE
  = if String.eqb s "Starting" then Some PENDING
    else if String.eqb s "On" then Some RUNNING
    else if String.eqb s "Off" then Some PENDING
    else if String.eqb s "Restarting" then Some REBOOTING
    else if String.eqb s "Saving" then Some PENDING
    else if String.eqb s "Restoring" then Some PENDING
    else None.
Proof. reflexivity. Qed.

Lemma get_state_of_name (element st : value) (s : string) :
  getitem element "state" = Ok st ->
  getitem st "name" = Ok (PyStr s) ->
  _get_state element
  = Ok (match table_lookup s STATE with Some x => x | None => UNKNOWN end).
Proof.
  intros Hst Hname. unfold _get_state. rewrite Hst. cbn [rbind].
  rewrite Hname. cbn [rbind]. unfold STATE_getitem. cbn [hashable].
  destruct (table_lookup s STATE); reflexivity.
Qed.

(** C5: [_get_state] never raises; it returns PENDING for the state names
    Starting, Off, Saving and Restoring, RUNNING for On, REBOOTING for
    Restarting, and UNKNOWN for every other state name, for a name that is
    not text, and when the [state] structure or its [name] is missing. *)
Theorem get_state_mapping :
  forall element : value,
    (exists s, _get_state element = Ok s)
    /\ (forall st nm, getitem element "state" = Ok st ->
        getitem st "name" = Ok (PyStr nm) ->
        (In nm ["Starting"; "Off"; "Saving"; "Restoring"] ->
         _get_state element = Ok PENDING)
        /\ (nm = "On" -> _get_state element = Ok RUNNING)
        /\ (nm = "Restarting" -> _get_state element = Ok REBOOTING)
        /\ (~ In nm ["Starting"; "On"; "Off"; "Restarting"; "Saving"; "Restoring"] ->
            _get_state element = Ok UNKNOWN))
    /\ (forall st nm, getitem element "state" = Ok st ->
        getitem st "name" = Ok nm ->
        (forall s, nm <> PyStr s) ->
        _get_state element = Ok UNKNOWN)
    /\ (forall e, getitem element "state" = Raise e ->
        _get_state element = Ok UNKNOWN)
    /\ (forall st e, getitem element "state" = Ok st ->
        getitem st "name" = Raise e ->
        _get_state element = Ok UNKNOWN).
Proof.
  intros element. split; [|split; [|split; [|split]]].
  - unfold _get_state.
    match goal with |- exists s, try_except ?c _ _ = _ => destruct c as [s|e] end;
      simpl; eauto.
  - intros st nm Hst Hname.
    rewrite (get_state_of_name element st nm Hst Hname).
    rewrite table_lookup_STATE.
    split; [|split; [|split]].
    + simpl. intros [<-|[<-|[<-|[<-|[]]]]]; reflexivity.
    + intros ->. reflexivity.
    + intros ->. reflexivity.
    + intros Hout.
      repeat match goal with
      | |- context [String.eqb nm ?k] =>
          destruct (String.eqb_spec nm k) as [->|_];
          [exfalso; apply Hout; simpl; tauto|]
      end.
      reflexivity.
  - intros st nm Hst Hname Hnot. unfold _get_state.
    rewrite Hst. simpl. rewrite Hname. simpl.
    unfold STATE_getitem.
    destruct nm; simpl; try reflexivity.
    exfalso. eapply Hnot. reflexivity.
  - intros e He. unfold _get_state. rewrite He. reflexivity.
  - intros st e Hst He. unfold _get_state. rewrite Hst. simpl. rewrite He.
    reflexivity.
Qed.

(** ** The request signature *)

Lemma py_str_injective (a b : Z) : py_str a = py_str b -> a = b.
Proof.
  unfold py_str. intros E.
  assert (Hgood : forall z, Z.to_int z <> Decimal.Pos Decimal.Nil
                            /\ Z.to_int z <> Decimal.Neg Decimal.Nil).
  { intros [|p|p]; simpl; split; try discriminate;
      intros [= H]; exact (DecimalPos.Unsigned.to_uint_nonnil p H). }
  assert (Hint : Some (Z.to_int a) = Some (Z.to_int b)).
  { rewrite <- (NilZero.isi (Z.to_int a)) by apply Hgood.
    rewrite <- (NilZero.isi (Z.to_int b)) by apply Hgood.
    rewrite E. reflexivity. }
  injection Hint as Hint.
  rewrite <- (DecimalZ.of_to a), <- (DecimalZ.of_to b), Hint. reflexivity.
Qed.

Lemma append_cancel_l (p s t : string) :
  (p ++ s)%string = (p ++ t)%string -> s = t.
Proof.
  induction p as [|c p IH]; simpl; [trivial|].
  intros [= E]. auto.
Qed.

(** *** The digest takes its values in a finite set *)

Lemma in_words (l : list ascii) :
  Forall (fun c => In c hex_alphabet) l -> In l (words (List.length l)).
Proof.
  induction 1 as [|c l Hc _ IH]; [left; reflexivity|].
  cbn [List.length words]. apply in_flat_map. exists l. split; [exact IH|].
  apply in_map_iff. exists c. split; [reflexivity|exact Hc].
Qed.

Lemma hex_digit_in (n : Z) : In (MD5.hex_digit n) hex_alphabet.
Proof.
  unfold MD5.hex_digit. fold hex_alphabet.
  destruct (Nat.lt_ge_cases (Z.to_nat n) (List.length hex_alphabet)) as [Hlt|Hge].
  - apply nth_In. exact Hlt.
  - rewrite nth_overflow by exact Hge. left. reflexivity.
Qed.

Lemma hex_word_shape (w : Z) :
  Forall (fun c => In c hex_alphabet) (MD5.hex_word w)
  /\ List.length (MD5.hex_word w) = 8%nat.
Proof.
  unfold MD5.hex_word, MD5.hex_byte. cbn [seq flat_map app].
  split; [|reflexivity].
  repeat (apply Forall_cons; [apply hex_digit_in|]). apply Forall_nil.
Qed.

Lemma hexdigest_range :
  exists digests : list string, forall s, In (MD5.hexdigest s) digests.
Proof.
  exists (map string_of_list_ascii (words 32)).
  intros s. unfold MD5.hexdigest.
  set (st := MD5.digest_words s). cbv zeta.
  apply in_map.
  destruct (hex_word_shape (MD5.sA st)) as [FA LA].
  destruct (hex_word_shape (MD5.sB st)) as [FB LB].
  destruct (hex_word_shape (MD5.sC st)) as [FC LC].
  destruct (hex_word_shape (MD5.sD st)) as [FD LD].
  set (l := MD5.hex_word (MD5.sA st) ++ MD5.hex_word (MD5.sB st)
            ++ MD5.hex_word (MD5.sC st) ++ MD5.hex_word (MD5.sD st)).
  assert (Hlen : List.length l = 32%nat).
  { unfold l. rewrite !length_app, LA, LB, LC, LD. reflexivity. }
  rewrite <- Hlen. apply in_words.
  unfold l.
  apply Forall_app; split; [exact FA|].
  apply Forall_app; split; [exact FB|].
  apply Forall_app; split; [exact FC|exact FD].
Qed.

Lemma NoDup_map_injective {A B} (f : A -> B) (l : list A) :
  (forall x y, f x = f y -> x = y) -> NoDup l -> NoDup (map f l).
Proof.
  intros Hinj. induction 1 as [|x l Hx _ IH]; simpl; constructor; [|exact IH].
  rewrite in_map_iff. intros (y & E & Hy). apply Hinj in E. subst. contradiction.
Qed.

(** A function from the naturals into a finite set of texts repeats. *)
Lemma pigeonhole (f : nat -> string) (range : list string) :
  (forall i, In (f i) range) -> ~ (forall i j, i <> j -> f i <> f j).
Proof.
  intros Hin Hinj.
  assert (Hnodup : NoDup (map f (seq 0 (S (List.length range))))).
  { apply NoDup_map_injective; [|apply seq_NoDup].
    intros i j E. destruct (Nat.eq_dec i j) as [|Hne]; [assumption|].
    exfalso. exact (Hinj i j Hne E). }
  apply NoDup_incl_length with (l' := range) in Hnodup.
  - rewrite length_map, length_seq in Hnodup. lia.
  - intros x Hx. apply in_map_iff in Hx as (i & <- & _). apply Hin.
Qed.

(** Over unbounded whole-second timestamps the signatures of one account
    must repeat, since the digest takes finitely many values.  This says
    nothing about the timestamps a clock can read, which are fewer than the
    digests. *)
Lemma signature_not_injective :
  ~ (forall (key secret : string) (t1 t2 : Z),
       t1 <> t2 ->
       get_signature (inject_Z t1) key secret
       <> get_signature (inject_Z t2) key secret).
Proof.
  intros Hdiff.
  destruct hexdigest_range as [digests Hrange].
  apply (pigeonhole
           (fun i => get_signature (inject_Z (Z.of_nat i)) "user" "secret")
           digests).
  - intros i. apply Hrange.
  - intros i j Hne. apply Hdiff. lia.
Qed.

(** The signature is the hexadecimal MD5 digest of identifier, secret and
    the decimal text of the clock reading truncated to whole seconds,
    concatenated; it is therefore the same for readings with the same whole
    second, and readings with different whole seconds have different
    messages hashed.  Whether the digests of two such messages can be equal
    is left open. *)
Lemma signature_spec :
  forall (key secret : string) (now now' : Q),
    get_signature now key secret
    = MD5.hexdigest (key ++ secret ++ py_str (py_int now))%string
    /\ (py_int now = py_int now' ->
        get_signature now key secret = get_signature now' key secret)
    /\ (py_int now <> py_int now' ->
        (key ++ secret ++ py_str (py_int now))%string
        <> (key ++ secret ++ py_str (py_int now'))%string).
Proof.
  intros key secret now now'. split; [reflexivity|]. split.
  - intros E. unfold get_signature. rewrite E. reflexivity.
  - intros Hne E. apply Hne.
    apply py_str_injective.
    apply (append_cancel_l secret). apply (append_cancel_l key). exact E.
Qed.

(** ** Allocation of an unassigned public address *)

(** C8: when the provider answers the unassigned-address listing with an
    object whose [list] is a non-empty list, [_get_first_ip] returns the
    [ip] field of its first entry; when the [list] is empty it raises the
    error [No public unassigned IPs left].  One request is made in both
    cases. *)
Theorem get_first_ip_spec :
  forall (provider : history -> result value) (location : option value)
         (h : history) (object : value),
    provider (Request "/api/grid/ip/list" (ip_list_params location) "GET" :: h)
    = Ok object ->
    (forall first rest ip,
        getitem object "list" = Ok (PyList (first :: rest)) ->
        getitem first "ip" = Ok ip ->
        _get_first_ip provider location h
        = (Ok ip,
           Request "/api/grid/ip/list" (ip_list_params location) "GET" :: h))
    /\ (getitem object "list" = Ok (PyList []) ->
        _get_first_ip provider location h
        = (Raise (LibcloudError "No public unassigned IPs left"),
           Request "/api/grid/ip/list" (ip_list_params location) "GET" :: h)).
Proof.
  intros provider location h object Hobj.
  unfold _get_first_ip, bind, request, lift. cbv zeta. rewrite Hobj.
  split.
  - intros first rest ip Hlist Hip. rewrite Hlist. simpl. rewrite Hip.
    reflexivity.
  - intros Hlist. rewrite Hlist. reflexivity.
Qed.

Lemma get_first_ip_spec_witness :
  _get_first_ip
    (scripted [Ok (PyDict [("list", PyList [PyDict [("ip", PyStr "208.113.0.7")];
                                            PyDict [("ip", PyStr "208.113.0.8")]])])])
    None []
  = (Ok (PyStr "208.113.0.7"),
     [Request "/api/grid/ip/list" (ip_list_params None) "GET"])
  /\ _get_first_ip (scripted [Ok (PyDict [("list", PyList [])])]) None []
     = (Raise (LibcloudError "No public unassigned IPs left"),
        [Request "/api/grid/ip/list" (ip_list_params None) "GET"]).
Proof.
  split.
  - eapply (get_first_ip_spec
              (scripted [Ok (PyDict [("list", PyList [PyDict [("ip", PyStr "208.113.0.7")];
                                                      PyDict [("ip", PyStr "208.113.0.8")]])])])
              None []); reflexivity.
  - eapply (get_first_ip_spec (scripted [Ok (PyDict [("list", PyList [])])])
              None []); reflexivity.
Defined.

(** ** Keys of a dictionary

    On hashable values, [key_eq] is equality of the canonical key. *)
Lemma num_eq_true (x y : number) : num_eq x y = true <-> x = y /\ x <> NaN.
Proof.
  destruct x as [|s m e|s|], y as [|s' m' e'|s'|]; simpl;
    try (split; [discriminate | intros [E N]; try discriminate; contradiction]).
  - split; [intros _; split; [reflexivity|discriminate]|reflexivity].
  - rewrite !andb_true_iff, Bool.eqb_true_iff, Pos.eqb_eq, Z.eqb_eq.
    split.
    + intros [[-> ->] ->]. split; [reflexivity|discriminate].
    + intros [[= -> -> ->] _]. auto.
  - rewrite Bool.eqb_true_iff. split.
    + intros ->. split; [reflexivity|discriminate].
    + intros [[= ->] _]. reflexivity.
Qed.

Lemma numeric_nan (v : value) :
  numeric v = Some NaN -> v = PyFloat S754_nan.
Proof.
  assert (Hfin : forall s m e, finite s m e <> NaN).
  { intros s m e. unfold finite. destruct (odd_part m e). discriminate. }
  assert (Hint : forall z, number_of_int z <> NaN).
  { intros [|p|p]; simpl; [discriminate|apply Hfin|apply Hfin]. }
  destruct v as [|b|z|f|s|l|d]; simpl; try discriminate.
  - intros [= E]. exfalso. exact (Hint _ E).
  - intros [= E]. exfalso. exact (Hint _ E).
  - destruct f as [s|s| |s m e]; simpl; try discriminate; [reflexivity|].
    intros [= E]. exfalso. exact (Hfin _ _ _ E).
Qed.

Lemma key_eq_numeric (a b : value) (x y : number) :
  numeric a = Some x -> numeric b = Some y ->
  (same_object a b || num_eq x y = true <-> Some (KNum x) = Some (KNum y)).
Proof.
  intros Ex Ey. rewrite orb_true_iff, num_eq_true. split.
  - intros [Hsame|[E _]]; [|rewrite E; reflexivity].
    destruct a as [| | |[| | |]| | |], b as [| | |[| | |]| | |];
      simpl in Hsame; try discriminate.
    simpl in Ex, Ey. congruence.
  - intros [= <-]. destruct x as [|s m e|s|] eqn:Hx;
      try (right; split; [reflexivity|discriminate]).
    left. apply numeric_nan in Ex, Ey. subst. reflexivity.
Qed.

Lemma key_eq_canonical (a b : value) :
  hashable a = true -> hashable b = true ->
  (key_eq a b = true <-> canonical a = canonical b).
Proof.
  intros Ha Hb. unfold key_eq.
  destruct a as [|ba|za|fa|sa|la|da]; try discriminate Ha;
    destruct b as [|bb|zb|fb|sb|lb|db]; try discriminate Hb;
    try (lazymatch goal with
         | |- (same_object ?u ?w || _ = true) <-> _ =>
             exact (key_eq_numeric u w _ _ eq_refl eq_refl)
         end);
    try (simpl; split; intros H; discriminate H).
  - simpl. split; reflexivity.
  - destruct fa; simpl; split; intros H; discriminate H.
  - destruct fa; simpl; split; intros H; discriminate H.
  - simpl. rewrite String.eqb_eq.
    split; [intros ->; reflexivity|intros [= ->]; reflexivity].
Qed.

Lemma key_eq_sym (a b : value) :
  hashable a = true -> hashable b = true -> key_eq a b = key_eq b a.
Proof.
  intros Ha Hb. apply eq_true_iff_eq.
  rewrite !key_eq_canonical by assumption. split; intros E; symmetry; exact E.
Qed.

Lemma key_eq_trans (a b c : value) :
  hashable a = true -> hashable b = true -> hashable c = true ->
  key_eq a b = true -> key_eq b c = true -> key_eq a c = true.
Proof.
  intros Ha Hb Hc. rewrite !key_eq_canonical by assumption. congruence.
Qed.

(** ** The password map of [list_nodes] *)

Lemma pydict_store_hashable (m : pydict) (k v : value) :
  keys_hashable m -> hashable k = true -> keys_hashable (pydict_store k v m).
Proof.
  intros Hm Hk. induction Hm as [|[k0 v0] m Hk0 Hm IH]; simpl.
  - constructor; [exact Hk|constructor].
  - destruct (key_eq k0 k); constructor; assumption.
Qed.

Lemma pydict_find_store (m : pydict) (k' v k : value) :
  keys_hashable m -> hashable k' = true -> hashable k = true ->
  pydict_find k (pydict_store k' v m)
  = if key_eq k' k then Some v else pydict_find k m.
Proof.
  intros Hm Hk' Hk. induction Hm as [|[k0 v0] m Hk0 Hm IH]; simpl.
  - reflexivity.
  - simpl in Hk0.
    destruct (key_eq k0 k') eqn:E0; simpl.
    + destruct (key_eq k' k) eqn:E1.
      * rewrite (key_eq_trans k0 k' k) by assumption. reflexivity.
      * destruct (key_eq k0 k) eqn:E2; [|reflexivity].
        exfalso. rewrite (key_eq_sym k0 k') in E0 by assumption.
        rewrite (key_eq_trans k' k0 k) in E1 by assumption. discriminate.
    + rewrite IH. destruct (key_eq k' k) eqn:E1; [|reflexivity].
      destruct (key_eq k0 k) eqn:E2; [|reflexivity].
      exfalso. rewrite (key_eq_sym k' k) in E1 by assumption.
      rewrite (key_eq_trans k0 k k') in E0 by assumption. discriminate.
Qed.

Lemma getitem_lookup_error (v : value) (k : string) :
  raises_lookup_error (getitem v k).
Proof.
  intros e. destruct v; simpl; try (intros [= <-]; reflexivity).
  destruct (dict_lookup k d); [discriminate|intros [= <-]; reflexivity].
Qed.

Lemma get_lookup_error (v : value) (k : string) :
  raises_lookup_error (get v k).
Proof.
  intros e. destruct v; simpl; try (intros [= <-]; reflexivity).
  destruct (dict_lookup k d); discriminate.
Qed.

Lemma py_iter_lookup_error (v : value) : raises_lookup_error (py_iter v).
Proof.
  intros e. destruct v; simpl; try (intros [= <-]; reflexivity); discriminate.
Qed.

Lemma rbind_lookup_error {A B} (c : result A) (k : A -> result B) :
  raises_lookup_error c -> (forall a, raises_lookup_error (k a)) ->
  raises_lookup_error (rbind c k).
Proof.
  intros Hc Hk e. destruct c as [a|e']; simpl.
  - apply Hk.
  - intros [= <-]. apply Hc. reflexivity.
Qed.

(** One turn of the inner loop either stores the record's entry or, when a
    field is missing, leaves the map alone. *)
Lemma record_password_spec (m m' : pydict) (record : value) :
  record_password m record = Ok m' ->
  match password_entry record with
  | Some (server_id, pw) =>
      hashable server_id = true /\ m' = pydict_store server_id pw m
  | None => m' = m
  end.
Proof.
  unfold record_password, password_entry, pydict_setitem.
  destruct (getitem record "password") as [pw|e1]; simpl.
  - destruct (getitem record "server") as [server|e2]; simpl.
    + destruct (getitem server "id") as [server_id|e3]; simpl.
      * destruct (hashable server_id); simpl; [|discriminate].
        intros [= <-]. split; reflexivity.
      * destruct (is_KeyError e3); [|discriminate]. intros [= <-]. reflexivity.
    + destruct (is_KeyError e2); [|discriminate]. intros [= <-]. reflexivity.
  - destruct (is_KeyError e1); [|discriminate]. intros [= <-]. reflexivity.
Qed.

Lemma record_password_lookup_error (m : pydict) (record : value) :
  raises_lookup_error (record_password m record).
Proof.
  intros e. unfold record_password, try_except.
  match goal with |- match ?c with _ => _ end = _ -> _ =>
    assert (Hc : raises_lookup_error c); [|destruct c as [x|e']] end.
  { repeat (apply rbind_lookup_error; [apply getitem_lookup_error|intros ?]).
    unfold pydict_setitem. intros e'. destruct (hashable _); [discriminate|].
    intros [= <-]. reflexivity. }
  - discriminate.
  - destruct (is_KeyError e'); [discriminate|].
    intros [= <-]. apply Hc. reflexivity.
Qed.

Lemma record_passwords_lookup_error (records : list value) (m : pydict) :
  raises_lookup_error (record_passwords m records).
Proof.
  revert m. induction records as [|record rest IH]; intros m; simpl.
  - discriminate.
  - apply rbind_lookup_error; [apply record_password_lookup_error|].
    intros m1. apply IH.
Qed.

Lemma fill_passwords_map_lookup_error (passwords : value) :
  raises_lookup_error (fill_passwords_map passwords).
Proof.
  unfold fill_passwords_map.
  apply rbind_lookup_error; [apply getitem_lookup_error|intros entries].
  apply rbind_lookup_error; [apply py_iter_lookup_error|intros items].
  apply record_passwords_lookup_error.
Qed.

Lemma record_passwords_find (records : list value) (m m' : pydict) (k : value) :
  keys_hashable m -> hashable k = true ->
  record_passwords m records = Ok m' ->
  keys_hashable m'
  /\ pydict_find k m'
     = match correlated k records with
       | Some pw => Some pw
       | None => pydict_find k m
       end.
Proof.
  revert m. induction records as [|record rest IH]; intros m Hm Hk; simpl.
  - intros [= <-]. split; [exact Hm|reflexivity].
  - destruct (record_password m record) as [m1|e] eqn:E1; simpl; [|discriminate].
    intros Hrest. apply record_password_spec in E1.
    assert (H1 : keys_hashable m1
                 /\ pydict_find k m1
                    = match password_entry record with
                      | Some (server_id, pw) =>
                          if key_eq server_id k then Some pw else pydict_find k m
                      | None => pydict_find k m
                      end).
    { destruct (password_entry record) as [[server_id pw]|].
      - destruct E1 as [Hs ->]. split.
        + apply pydict_store_hashable; assumption.
        + apply pydict_find_store; assumption.
      - subst m1. split; [exact Hm|reflexivity]. }
    destruct H1 as [Hm1 Hfind1].
    destruct (IH m1 Hm1 Hk Hrest) as [Hm' Hfind]. split; [exact Hm'|].
    rewrite Hfind, Hfind1.
    destruct (correlated k rest); [reflexivity|].
    destruct (password_entry record) as [[server_id pw]|]; [|reflexivity].
    destruct (key_eq server_id k); reflexivity.
Qed.

(** What [correlated] finds is the password of a record of the list whose
    server identifier equals the key; it finds nothing exactly when the
    list has no such record. *)
Lemma correlated_some (k : value) (records : list value) (pw : value) :
  correlated k records = Some pw ->
  exists record server_id,
    In record records /\ password_entry record = Some (server_id, pw)
    /\ key_eq server_id k = true.
Proof.
  induction records as [|record rest IH]; simpl; [discriminate|].
  destruct (correlated k rest) as [pw'|].
  - intros [= ->]. destruct (IH eq_refl) as (r & sid & Hin & He & Hk).
    exists r, sid. auto.
  - destruct (password_entry record) as [[server_id pw']|] eqn:He; [|discriminate].
    destruct (key_eq server_id k) eqn:Hk; [|discriminate].
    intros [= ->]. exists record, server_id. auto.
Qed.

Lemma correlated_none (k : value) (records : list value) :
  correlated k records = None <->
  (forall record server_id pw,
      In record records -> password_entry record = Some (server_id, pw) ->
      key_eq server_id k = false).
Proof.
  induction records as [|record rest IH]; simpl.
  - split; [intros _ r sid pw []|reflexivity].
  - destruct (correlated k rest) as [pw'|] eqn:Hrest.
    + split; [discriminate|]. intros Hall. exfalso.
      destruct (correlated_some k rest pw' Hrest) as (r & sid & Hin & He & Hk).
      rewrite (Hall r sid pw' (or_intror Hin) He) in Hk. discriminate.
    + destruct IH as [IH1 _]. specialize (IH1 eq_refl).
      destruct (password_entry record) as [[server_id pw']|] eqn:He.
      * destruct (key_eq server_id k) eqn:Hk.
        -- split; [discriminate|]. intros Hall.
           rewrite (Hall record server_id pw' (or_introl eq_refl) He) in Hk.
           discriminate.
        -- split; [|reflexivity]. intros _ r sid pw [<-|Hin] Her.
           ++ rewrite He in Her. injection Her as <- <-. exact Hk.
           ++ eapply IH1; eassumption.
      * split; [|reflexivity]. intros _ r sid pw [<-|Hin] Her.
        -- rewrite He in Her. discriminate.
        -- eapply IH1; eassumption.
Qed.

(** ** [_to_node] and [list_nodes] *)

Lemma bind_ok {A B} (c : result A) (k : A -> result B) (b : B) :
  rbind c k = Ok b -> exists a, c = Ok a /\ k a = Ok b.
Proof. destruct c as [a|e]; simpl; [eauto|discriminate]. Qed.

(** A mapped node keeps the record's identifier, has exactly one public
    address, and carries a password exactly when a true one was passed. *)
Lemma to_node_inv (element password : value) (n : Node) :
  _to_node element password = Ok n ->
  get element "id" = Ok (id n)
  /\ (exists ip, _get_ip element = Ok ip /\ public_ip n = [ip])
  /\ dict_lookup "password" (extra n)
     = (if truth password then Some password else None)
  /\ exists n0, _to_node element PyNone = Ok n0
                /\ n = (if truth password
                        then set_extra n0 "password" password else n0).
Proof.
  intros H. pose proof H as H0. unfold _to_node, _get_id in H.
  apply bind_ok in H as (st & E1 & H).
  apply bind_ok in H as (ip & E2 & H).
  apply bind_ok in H as (i & E3 & H).
  apply bind_ok in H as (nm & E4 & H).
  apply bind_ok in H as (ram & E5 & H).
  apply bind_ok in H as (ram_name & E6 & H).
  apply bind_ok in H as (sandbox & E7 & H).
  injection H as <-.
  assert (Hnone : _to_node element PyNone
                  = Ok (mkNode i nm st [ip] []
                          [("ram", ram_name);
                           ("isSandbox", PyBool (py_eq sandbox (PyStr "true")))])).
  { unfold _to_node, _get_id. rewrite E1. cbn [rbind]. rewrite E2. cbn [rbind].
    rewrite E3. cbn [rbind]. rewrite E4. cbn [rbind]. rewrite E5. cbn [rbind].
    rewrite E6. cbn [rbind]. rewrite E7. reflexivity. }
  destruct (truth password); cbn [id public_ip extra set_extra];
    (split; [exact E3|]); (split; [eauto|]); (split; [reflexivity|]);
    eexists; (split; [exact Hnone|reflexivity]).
Qed.

Lemma comprehension_ok {A B} (f : A -> result B) (els : list A) (xs : list B) :
  comprehension f els = Ok xs <-> Forall2 (fun el x => f el = Ok x) els xs.
Proof.
  revert xs. induction els as [|el rest IH]; intros xs; simpl.
  - split; [intros [= <-]; constructor|intros H; inversion H; reflexivity].
  - split.
    + intros H. apply bind_ok in H as (x & Hx & H).
      apply bind_ok in H as (xs' & Hxs & [= <-]).
      constructor; [exact Hx|]. apply IH. exact Hxs.
    + intros H. inversion H as [|? x ? xs' Hx Hxs]; subst.
      rewrite Hx. simpl. apply IH in Hxs. rewrite Hxs. reflexivity.
Qed.

Lemma pydict_get_ok (m : pydict) (k v : value) :
  pydict_get m k = Ok v ->
  hashable k = true
  /\ v = match pydict_find k m with Some x => x | None => PyNone end.
Proof.
  unfold pydict_get. destruct (hashable k); [|discriminate].
  intros [= <-]. split; reflexivity.
Qed.

Section ListNodesProperties.

Variable provider : history -> result value.
Variable h : history.

(** [list_nodes] makes its two requests in this order; the password map is
    empty when the second raises [InvalidCredsError]. *)
Lemma list_nodes_run (res : value) :
  provider (after_server_list h) = Ok res ->
  list_nodes provider h
  = match rbind (provider (after_password_list h)) fill_passwords_map with
    | Ok m => (to_nodes res m, after_password_list h)
    | Raise e =>
        if is_InvalidCredsError e then (to_nodes res [], after_password_list h)
        else (Raise e, after_password_list h)
    end.
Proof.
  intros Hres.
  unfold list_nodes, bind, try_exceptM, _server_list, _password_list,
    request, lift, ret.
  change (Request "/api/grid/server/list" [] "GET" :: h)
    with (after_server_list h).
  rewrite Hres.
  change (Request "/api/support/password/list" [] "GET" :: after_server_list h)
    with (after_password_list h).
  destruct (provider (after_password_list h)) as [passwords|e]; simpl.
  - destruct (fill_passwords_map passwords) as [m|e]; [reflexivity|].
    destruct (is_InvalidCredsError e); reflexivity.
  - destruct (is_InvalidCredsError e); reflexivity.
Qed.

Lemma to_nodes_ok (res : value) (m : pydict) (nodes : list Node) :
  to_nodes res m = Ok nodes ->
  exists els,
    rbind (getitem res "list") py_iter = Ok els
    /\ Forall2
         (fun el n =>
            exists pw,
              hashable (id n) = true
              /\ pw = match pydict_find (id n) m with
                      | Some x => x
                      | None => PyNone
                      end
              /\ _to_node el pw = Ok n)
         els nodes.
Proof.
  unfold to_nodes. intros H.
  apply bind_ok in H as (servers & Hs & H).
  apply bind_ok in H as (els & He & H).
  exists els. rewrite Hs. simpl. split; [exact He|].
  apply comprehension_ok in H.
  eapply Forall2_impl; [|exact H].
  intros el n Hn. cbv beta in Hn.
  apply bind_ok in Hn as (el_id & Hid & Hn).
  apply bind_ok in Hn as (pw & Hpw & Hn).
  destruct (to_node_inv _ _ _ Hn) as (Hid' & _).
  assert (el_id = id n) as -> by congruence.
  apply pydict_get_ok in Hpw as [Hh ->]. eauto.
Qed.

End ListNodesProperties.

(** C6: when the server list is fetched and the password-list fetch raises
    the authentication error, [list_nodes] makes both requests, swallows the
    error and maps the server records against the empty password map.  What
    it returns is the list of the records mapped by [_to_node] without a
    password, in order, none of them carrying one; and it does return when
    every record maps and has a hashable identifier. *)
Theorem list_nodes_without_password_list :
  forall (provider : history -> result value) (h : history) (res : value)
         (msg : string),
    provider (Request "/api/grid/server/list" [] "GET" :: h) = Ok res ->
    provider (Request "/api/support/password/list" [] "GET"
                :: Request "/api/grid/server/list" [] "GET" :: h)
    = Raise (InvalidCredsError msg) ->
    list_nodes provider h
    = (to_nodes res [],
       Request "/api/support/password/list" [] "GET"
         :: Request "/api/grid/server/list" [] "GET" :: h)
    /\ (forall nodes,
           to_nodes res [] = Ok nodes ->
           exists els,
             rbind (getitem res "list") py_iter = Ok els
             /\ Forall2 (fun el n => _to_node el PyNone = Ok n) els nodes
             /\ Forall (fun n => dict_lookup "password" (extra n) = None) nodes)
    /\ (forall els,
           rbind (getitem res "list") py_iter = Ok els ->
           (forall el, In el els ->
                       exists n, _to_node el PyNone = Ok n
                                 /\ hashable (id n) = true) ->
           exists nodes, to_nodes res [] = Ok nodes).
Proof.
  intros provider h res msg Hres Hpw.
  rewrite (list_nodes_run provider h res Hres).
  unfold after_password_list, after_server_list.
  rewrite Hpw. cbn [rbind is_InvalidCredsError fst].
  split; [reflexivity|]. split.
  - intros nodes Hnodes.
    apply to_nodes_ok in Hnodes as (els & Hels & Hall).
    exists els. split; [exact Hels|]. clear Hels.
    induction Hall as [|el n els nodes (pw & _ & -> & Hn) _ IH].
    + split; constructor.
    + cbn [pydict_find] in Hn. destruct IH as [IH1 IH2].
      split; constructor; try assumption.
      destruct (to_node_inv _ _ _ Hn) as (_ & _ & Hextra & _). exact Hextra.
  - intros els Hels Hmap. unfold to_nodes.
    apply bind_ok in Hels as (servers & -> & Hels). cbn [rbind].
    rewrite Hels. cbn [rbind].
    assert (Hc : exists nodes,
               comprehension
                 (fun el =>
                    rbind (get el "id") (fun el_id =>
                    rbind (pydict_get [] el_id) (fun password =>
                    _to_node el password))) els = Ok nodes).
    { clear Hels. induction els as [|el rest IH]; [exists []; reflexivity|].
      destruct (Hmap el (or_introl eq_refl)) as (n & Hn & Hh).
      destruct IH as [nodes Hnodes]; [intros x Hx; apply Hmap; right; exact Hx|].
      exists (n :: nodes). cbn [comprehension].
      destruct (to_node_inv _ _ _ Hn) as (-> & _). cbn [rbind].
      assert (Hget : pydict_get [] (id n) = Ok PyNone)
        by (unfold pydict_get; rewrite Hh; reflexivity).
      rewrite Hget. cbn [rbind].
      rewrite Hn. cbn [rbind]. rewrite Hnodes. reflexivity. }
    destruct Hc as [nodes ->]. exists nodes. reflexivity.
Qed.

Lemma list_nodes_without_password_list_witness :
  exists nodes h',
    list_nodes
      (scripted [ Ok (envelope [ server_record [("id", PyInt 7)] "web" "208.113.0.7" "On";
                                 server_record [("id", PyInt 8)] "db" "208.113.0.8" "Off" ]);
                  Raise (InvalidCredsError "API Key has insufficient rights") ])
      []
    = (Ok nodes, h')
    /\ List.length nodes = 2%nat
    /\ Forall (fun n => dict_lookup "password" (extra n) = None) nodes.
Proof.
  pose proof (list_nodes_without_password_list
                (scripted [ Ok (envelope [ server_record [("id", PyInt 7)] "web" "208.113.0.7" "On";
                                           server_record [("id", PyInt 8)] "db" "208.113.0.8" "Off" ]);
                            Raise (InvalidCredsError "API Key has insufficient rights") ])
                [] _ _ eq_refl eq_refl) as (Hrun & Hsound & Hruns).
  destruct (Hruns _ eq_refl) as [nodes Hnodes].
  { intros el [<-|[<-|[]]]; eexists; split; reflexivity. }
  exists nodes. eexists. split; [rewrite Hrun, Hnodes; reflexivity|].
  destruct (Hsound nodes Hnodes) as (els & Hels & Hall & Hnone).
  injection Hels as <-.
  split; [|exact Hnone].
  apply Forall2_length in Hall. rewrite <- Hall. reflexivity.
Defined.




(** ** [create_node] *)

Lemma first_match_spec (node : Node) (nodes : list Node) :
  (forall i, In i nodes -> exists b, matches node i = Ok b) ->
  (first_match node nodes = Ok None
   /\ forall i, In i nodes -> matches node i = Ok false)
  \/ (exists pre i post,
         nodes = pre ++ i :: post
         /\ (forall x, In x pre -> matches node x = Ok false)
         /\ matches node i = Ok true
         /\ first_match node nodes = Ok (Some i)).
Proof.
  induction nodes as [|i rest IH]; intros Hall.
  - left. split; [reflexivity|intros i []].
  - destruct (Hall i (or_introl eq_refl)) as [b Hb].
    cbn [first_match]. rewrite Hb. cbn [rbind].
    destruct b.
    + right. exists [], i, rest. repeat split; auto. intros x [].
    + destruct IH as [[Hnone Hfalse]|(pre & j & post & -> & Hpre & Hj & Hfirst)].
      * intros x Hx. apply Hall. right. exact Hx.
      * left. split; [exact Hnone|]. intros x [<-|Hx]; auto.
      * right. exists (i :: pre), j, post. repeat split; auto.
        intros x [<-|Hx]; auto.
Qed.

(** Every node [list_nodes] returns has exactly one public address. *)
Lemma list_nodes_public_ip (provider : history -> result value) (h h' : history)
    (nodes : list Node) :
  list_nodes provider h = (Ok nodes, h') ->
  Forall (fun n => exists ip, public_ip n = [ip]) nodes.
Proof.
  intros Hrun.
  destruct (provider (Request "/api/grid/server/list" [] "GET" :: h))
    as [res|e] eqn:Hres.
  - rewrite (list_nodes_run provider h res Hres) in Hrun.
    assert (Hm : exists m, to_nodes res m = Ok nodes).
    { destruct (rbind _ fill_passwords_map) as [m|e]; [|destruct (is_InvalidCredsError e)];
        injection Hrun as Hrun _; eauto; discriminate. }
    destruct Hm as [m Hm]. apply to_nodes_ok in Hm as (els & _ & Hall).
    clear Hrun. induction Hall as [|el n els nodes (pw & _ & _ & Hn) _ IH];
      constructor; [|exact IH].
    destruct (to_node_inv _ _ _ Hn) as (_ & (ip & _ & Hip) & _). eauto.
  - unfold list_nodes, bind, _server_list, request in Hrun.
    rewrite Hres in Hrun. discriminate.
Qed.

Lemma matches_total (node i : Node) :
  (exists ip, public_ip node = [ip]) -> (exists ip, public_ip i = [ip]) ->
  exists b, matches node i = Ok b.
Proof.
  intros [a Ha] [b Hb]. unfold matches. rewrite Ha, Hb. simpl. eauto.
Qed.

Section CreateNodeProperties.

Variable provider : history -> result value.
Variable str_Node : Node -> string.

(** With enough fuel for the turns that remain, the loop follows the turns
    of [poll_reaches]. *)
Lemma wait_for_id_reaches (node : Node) (w w' : Z) (h h' : history) :
  poll_reaches provider node w h w' h' ->
  forall fuel,
    timeout - w <= Z.of_nat fuel * interval ->
    exists fuel',
      timeout - w' <= Z.of_nat fuel' * interval
      /\ wait_for_id provider str_Node fuel node w h
         = wait_for_id provider str_Node fuel' node w' h'.
Proof.
  induction 1 as [w h|w h nodes h1 w' h' Hid Hw Hlist Hnone _ IH];
    intros fuel Hfuel.
  - exists fuel. split; [exact Hfuel|reflexivity].
  - destruct fuel as [|fuel]; [unfold timeout, interval in *; lia|].
    destruct (IH fuel) as (fuel' & Hfuel' & Heq).
    { unfold interval in *. lia. }
    exists fuel'. split; [exact Hfuel'|].
    rewrite <- Heq. cbn [wait_for_id].
    rewrite Hid. cbn [is_None andb].
    destruct (Z.ltb_spec w timeout) as [_|Hge]; [|lia].
    rewrite Hlist, Hnone. reflexivity.
Qed.

(** The loop ends within the fuel [create_node] gives it. *)
Lemma wait_for_id_terminates (node : Node) (fuel : nat) :
  forall (w : Z) (h : history),
    timeout - w <= Z.of_nat fuel * interval ->
    exists outcome, wait_for_id provider str_Node fuel node w h = Some outcome.
Proof.
  induction fuel as [|fuel IH]; intros w h Hfuel.
  - cbn [wait_for_id].
    destruct (Z.ltb_spec w timeout) as [Hlt|_]; [unfold interval in *; lia|].
    rewrite andb_false_r. unfold builtin_id_is_None. eauto.
  - cbn [wait_for_id].
    destruct (is_None (id node) && (w <? timeout));
      [|unfold builtin_id_is_None; eauto].
    destruct (list_nodes provider h) as [[nodes|e] h1]; [|eauto].
    destruct (first_match node nodes) as [[i|]|e]; eauto.
    cbn [sleep]. apply IH. unfold interval in *. lia.
Qed.

Lemma create_node_terminates (kwargs : create_kwargs) (h : history) :
  exists outcome, create_node provider str_Node kwargs h = Some outcome.
Proof.
  unfold create_node.
  destruct (ex_create_node_nowait provider kwargs h) as [[node|e] h1]; [|eauto].
  apply wait_for_id_terminates. vm_compute. discriminate.
Qed.

Lemma ex_create_node_nowait_public_ip (kwargs : create_kwargs) (h h1 : history)
    (node : Node) :
  ex_create_node_nowait provider kwargs h = (Ok node, h1) ->
  exists ip, public_ip node = [ip].
Proof.
  unfold ex_create_node_nowait, bind, lift. intros H.
  destruct (_get_first_ip provider (kw_location kwargs) h) as [[ip|e] h']; [|discriminate].
  cbv zeta in H.
  match type of H with context [request provider ?p ?q ?m h'] =>
    destruct (request provider p q m h') as [[object|e] h''] end; [|discriminate].
  injection H as H _.
  apply bind_ok in H as (servers & _ & H).
  apply bind_ok in H as (first & _ & H).
  destruct (to_node_inv _ _ _ H) as (_ & (a & _ & Ha) & _). eauto.
Qed.

End CreateNodeProperties.



(** When the loop comes to the deadline without a match, the test after it
    reads the builtin [id], not [node.id]: nothing is raised and the node
    is returned as it was created, without identifier. *)
Lemma create_node_past_deadline
    (provider : history -> result value) (str_Node : Node -> string)
    (kwargs : create_kwargs) (h0 h1 h : history) (node : Node) (w : Z) :
  ex_create_node_nowait provider kwargs h0 = (Ok node, h1) ->
  poll_reaches provider node 0 h1 w h ->
  timeout <= w ->
  create_node provider str_Node kwargs h0 = Some (Ok node, h).
Proof.
  intros Hcreate Hreach Hw. unfold create_node. rewrite Hcreate.
  destruct (wait_for_id_reaches provider str_Node node 0 w h1 h Hreach
              (Z.to_nat (timeout / interval)))
    as (fuel' & _ & ->).
  { vm_compute. discriminate. }
  assert (Hcond : is_None (id node) && (w <? timeout) = false).
  { destruct (Z.ltb_spec w timeout); [lia|apply andb_false_r]. }
  destruct fuel'; cbn [wait_for_id]; rewrite Hcond; reflexivity.
Qed.

(** C1: the code at an input on which the claim fails.  The provider never
    allocates the identifier; [create_node] polls ten times, sleeping two
    minutes after each poll, and then returns the node whose identifier is
    absent instead of raising. *)
Theorem create_node_returns_node_without_id :
  exists node h,
    create_node stalled_provider (fun _ => "node") sample_kwargs []
    = Some (Ok node, h)
    /\ id node = PyNone
    /\ List.length (filter is_server_list h) = 10%nat
    /\ fold_right (fun e total =>
                     match e with Sleep s => s + total | _ => total end) 0 h
       = timeout.
Proof.
  eexists. eexists. split; [vm_compute; reflexivity|].
  repeat split; reflexivity.
Qed.

(** * Properties of the rest of the driver *)

(** ** The classifier and [parse_body] together *)

Lemma py_eq_text (v : value) (t : string) :
  py_eq v (PyStr t) = true -> v = PyStr t.
Proof.
  destruct v as [|b|z|f|s|l|d]; simpl; try discriminate.
  rewrite String.eqb_eq. intros ->. reflexivity.
Qed.

(** What [success] returns is [None], [True] or [False]; the last two come
    from the [try] block only. *)
Lemma success_cases (json_loads : string -> result value) (self : Response)
    (v : value) :
  success json_loads self = Ok v ->
  status self <> 403 /\ status self <> 401
  /\ ((body self = "" /\ v = PyNone)
      \/ (body self <> ""
          /\ exists d field,
               json_loads (body self) = Ok (PyDict d)
               /\ dict_lookup "status" d = Some field
               /\ v = PyBool (py_eq field (PyStr "success")))).
Proof.
  unfold success.
  destruct (Z.eqb_spec (status self) 403) as [|H403]; [discriminate|].
  destruct (Z.eqb_spec (status self) 401) as [|H401]; [discriminate|].
  rewrite truth_body.
  destruct (String.eqb_spec (body self) "") as [Hb|Hb]; cbn [negb].
  - intros [= <-]. auto.
  - intros H. split; [exact H403|]. split; [exact H401|]. right.
    split; [exact Hb|].
    destruct (json_loads (body self)) as [decoded|e]; cbn [rbind try_except] in H.
    + destruct decoded as [| | | | | |d]; cbn [getitem rbind try_except] in H;
        try discriminate H.
      destruct (dict_lookup "status" d) as [field|] eqn:Hf;
        cbn [rbind try_except is_ValueError] in H; [|discriminate H].
      injection H as <-. exists d, field. auto.
    + destruct (is_ValueError e); discriminate H.
Qed.



(** X2: [success] returns [None] exactly when the status is neither 403
    nor 401 and the body is empty; [parse_body] returns [None] on the same
    responses without consulting the decoder, and [parse_error] returns
    [None] on them as soon as the decoder rejects the empty text. *)
Theorem success_none_iff_empty_body :
  forall (json_loads : string -> result value) (self : Response),
    (success json_loads self = Ok PyNone
     <-> status self <> 403 /\ status self <> 401 /\ body self = "")
    /\ (body self = "" -> parse_body json_loads self = Ok PyNone)
    /\ (body self = "" -> json_loads "" = Raise ValueError ->
        parse_error json_loads self = Ok PyNone).
Proof.
  intros json_loads self. split; [split|split].
  - intros H.
    apply success_cases in H
      as (H403 & H401 & [[Hb _]|(_ & d & field & _ & _ & Hv)]);
      [auto|discriminate Hv].
  - intros (H403 & H401 & Hb). apply success_empty_body; assumption.
  - intros Hb. unfold parse_body. rewrite Hb. reflexivity.
  - intros Hb Hdec. unfold parse_error. rewrite Hb, Hdec. reflexivity.
Qed.

(** ** The mandated query parameters *)

Lemma dict_lookup_store_same (k : string) (v : value) (d : list (string * value)) :
  dict_lookup k (dict_store k v d) = Some v.
Proof.
  induction d as [|[k' v'] d IH]; simpl.
  - rewrite String.eqb_refl. reflexivity.
  - destruct (String.eqb k k') eqn:E; simpl; rewrite E; [reflexivity|exact IH].
Qed.

Lemma dict_lookup_store_other (k k' : string) (v : value)
    (d : list (string * value)) :
  k' <> k -> dict_lookup k' (dict_store k v d) = dict_lookup k' d.
Proof.
  intros Hne. induction d as [|[k0 v0] d IH]; simpl.
  - destruct (String.eqb_spec k' k); [contradiction|reflexivity].
  - destruct (String.eqb_spec k k0) as [->|Hk]; simpl.
    + destruct (String.eqb_spec k' k0); [contradiction|reflexivity].
    + rewrite IH. reflexivity.
Qed.

Lemma dict_store_present (k : string) (v : value) (d : list (string * value)) :
  dict_lookup k d = Some v -> dict_store k v d = d.
Proof.
  induction d as [|[k' v'] d IH]; simpl; [discriminate|].
  destruct (String.eqb_spec k k') as [->|_].
  - intros [= ->]. reflexivity.
  - intros H. rewrite (IH H). reflexivity.
Qed.

Lemma dict_keys_store (k : string) (v : value) (d : list (string * value)) :
  dict_keys (dict_store k v d)
  = if existsb (String.eqb k) (dict_keys d) then dict_keys d
    else dict_keys d ++ [k].
Proof.
  unfold dict_keys. induction d as [|[k' v'] d IH]; simpl; [reflexivity|].
  destruct (String.eqb k k'); simpl; [reflexivity|].
  rewrite IH. destruct (existsb (String.eqb k) (map fst d)); reflexivity.
Qed.

Lemma dict_store_NoDup (k : string) (v : value) (d : list (string * value)) :
  NoDup (dict_keys d) -> NoDup (dict_keys (dict_store k v d)).
Proof.
  intros Hd. rewrite dict_keys_store.
  destruct (existsb (String.eqb k) (dict_keys d)) eqn:E; [exact Hd|].
  apply NoDup_app; [exact Hd|constructor; [intros []|constructor]|].
  intros x Hx [Hk|[]]. subst x.
  assert (Hex : existsb (String.eqb k) (dict_keys d) = true).
  { apply existsb_exists. exists k. split; [exact Hx|apply String.eqb_refl]. }
  rewrite E in Hex. discriminate.
Qed.

Lemma add_default_params_mandated (user_id key : string) (now : Q)
    (params : list (string * value)) :
  dict_lookup "api_key" (add_default_params user_id key now params)
  = Some (PyStr user_id)
  /\ dict_lookup "v" (add_default_params user_id key now params)
     = Some (PyStr API_VERSION)
  /\ dict_lookup "format" (add_default_params user_id key now params)
     = Some (PyStr "json")
  /\ dict_lookup "sig" (add_default_params user_id key now params)
     = Some (PyStr (get_signature now user_id key)).
Proof.
  unfold add_default_params. cbv zeta. repeat split.
  - rewrite !dict_lookup_store_other by discriminate.
    apply dict_lookup_store_same.
  - rewrite !dict_lookup_store_other by discriminate.
    apply dict_lookup_store_same.
  - rewrite !dict_lookup_store_other by discriminate.
    apply dict_lookup_store_same.
  - apply dict_lookup_store_same.
Qed.

(** X3: after [add_default_params], the four mandated keys hold the
    account identifier, the API version, the format [json] and the
    signature of the moment, whatever the caller had stored under them, and
    every other key holds what the caller stored. *)
Theorem add_default_params_lookup :
  forall (user_id key : string) (now : Q) (params : list (string * value)),
    dict_lookup "api_key" (add_default_params user_id key now params)
    = Some (PyStr user_id)
    /\ dict_lookup "v" (add_default_params user_id key now params)
       = Some (PyStr "1.5")
    /\ dict_lookup "format" (add_default_params user_id key now params)
       = Some (PyStr "json")
    /\ dict_lookup "sig" (add_default_params user_id key now params)
       = Some (PyStr (get_signature now user_id key))
    /\ (forall k,
           ~ In k ["api_key"; "v"; "format"; "sig"] ->
           dict_lookup k (add_default_params user_id key now params)
           = dict_lookup k params).
Proof.
  intros user_id key now params.
  destruct (add_default_params_mandated user_id key now params)
    as (Hapi & Hv & Hformat & Hsig).
  split; [exact Hapi|]. split; [exact Hv|]. split; [exact Hformat|].
  split; [exact Hsig|].
  intros k Hk. unfold add_default_params. cbv zeta.
  rewrite !dict_lookup_store_other; [reflexivity|..];
    intros ->; apply Hk; simpl; tauto.
Qed.

(** X4: [add_default_params] keeps the keys of [params] pairwise distinct,
    and applying it again at the same clock reading changes nothing. *)
Theorem add_default_params_idempotent :
  forall (user_id key : string) (now : Q) (params : list (string * value)),
    add_default_params user_id key now
      (add_default_params user_id key now params)
    = add_default_params user_id key now params
    /\ (NoDup (dict_keys params) ->
        NoDup (dict_keys (add_default_params user_id key now params))).
Proof.
  intros user_id key now params.
  destruct (add_default_params_mandated user_id key now params)
    as (Hapi & Hv & Hformat & Hsig).
  split.
  - unfold add_default_params at 1. cbv zeta.
    rewrite (dict_store_present "api_key" _ _ Hapi).
    rewrite (dict_store_present "v" _ _ Hv).
    rewrite (dict_store_present "format" _ _ Hformat).
    apply dict_store_present. exact Hsig.
  - intros Hd. unfold add_default_params. cbv zeta.
    repeat apply dict_store_NoDup. exact Hd.
Qed.

(** ** The node mapper on complete and incomplete records *)

Lemma get_state_total (element : value) : exists st, _get_state element = Ok st.
Proof.
  unfold _get_state.
  match goal with |- exists s, try_except ?c _ _ = _ => destruct c as [s|e] end;
    simpl; eauto.
Qed.

Lemma get_ok_dict (v : value) (k : string) (x : value) :
  get v k = Ok x ->
  exists d, v = PyDict d
            /\ x = match dict_lookup k d with Some y => y | None => PyNone end.
Proof.
  destruct v as [| | | | | |d]; simpl; try discriminate.
  intros H. exists d. split; [reflexivity|].
  destruct (dict_lookup k d); injection H as <-; reflexivity.
Qed.

Lemma getitem_ok_dict (v : value) (k : string) (x : value) :
  getitem v k = Ok x -> exists d, v = PyDict d /\ dict_lookup k d = Some x.
Proof.
  destruct v as [| | | | | |d]; simpl; try discriminate.
  destruct (dict_lookup k d) as [y|] eqn:E; [|discriminate].
  intros [= <-]. eauto.
Qed.

(** The node [_to_node] builds, field by field. *)
Lemma to_node_shape (element password : value) (n : Node) :
  _to_node element password = Ok n ->
  exists st address i nm ram r sb,
    _get_state element = Ok st
    /\ _get_ip element = Ok address
    /\ _get_id element = Ok i
    /\ getitem element "name" = Ok nm
    /\ get element "ram" = Ok ram
    /\ get ram "name" = Ok r
    /\ getitem element "isSandbox" = Ok sb
    /\ n = (let base :=
              mkNode i nm st [address] []
                     [("ram", r);
                      ("isSandbox", PyBool (py_eq sb (PyStr "true")))] in
            if truth password then set_extra base "password" password
            else base).
Proof.
  intros H. unfold _to_node in H.
  apply bind_ok in H as (st & E1 & H).
  apply bind_ok in H as (address & E2 & H).
  apply bind_ok in H as (i & E3 & H).
  apply bind_ok in H as (nm & E4 & H).
  apply bind_ok in H as (ram & E5 & H).
  apply bind_ok in H as (r & E6 & H).
  apply bind_ok in H as (sb & E7 & H).
  injection H as <-.
  exists st, address, i, nm, ram, r, sb. repeat split; assumption.
Qed.

(** X5: [_to_node] returns a node exactly when the record is a dictionary
    that has a [name] and an [isSandbox] entry and whose [ip] and [ram]
    entries are dictionaries; the identifier, the state and the inner
    [ip] and [name] entries may all be missing. *)
Theorem to_node_defined :
  forall element password : value,
    (exists n, _to_node element password = Ok n)
    <-> (exists d ip ram nm sb,
            element = PyDict d
            /\ dict_lookup "ip" d = Some (PyDict ip)
            /\ dict_lookup "ram" d = Some (PyDict ram)
            /\ dict_lookup "name" d = Some nm
            /\ dict_lookup "isSandbox" d = Some sb).
Proof.
  intros element password. split.
  - intros [n H].
    apply to_node_shape in H
      as (st & address & i & nm & ram & r & sb
          & _ & Hip & _ & Hname & Hram & Hr & Hsb & _).
    unfold _get_ip in Hip. apply bind_ok in Hip as (ip & Hip1 & Hip2).
    apply get_ok_dict in Hip1 as (d & -> & Hipv).
    apply get_ok_dict in Hip2 as (ipd & -> & _).
    apply get_ok_dict in Hram as (d' & [= <-] & Hramv).
    apply get_ok_dict in Hr as (ramd & -> & _).
    apply getitem_ok_dict in Hname as (d1 & [= <-] & Hname).
    apply getitem_ok_dict in Hsb as (d2 & [= <-] & Hsb).
    exists d, ipd, ramd, nm, sb.
    destruct (dict_lookup "ip" d) as [x|]; [|discriminate Hipv].
    destruct (dict_lookup "ram" d) as [y|]; [|discriminate Hramv].
    subst x y. auto.
  - intros (d & ip & ram & nm & sb & -> & Hip & Hram & Hname & Hsb).
    destruct (get_state_total (PyDict d)) as [st Hst].
    unfold _to_node, _get_ip, _get_id. rewrite Hst.
    cbn [rbind get getitem]. rewrite Hip, Hram, Hname, Hsb.
    cbn [rbind get].
    destruct (dict_lookup "ip" ip), (dict_lookup "id" d),
      (dict_lookup "name" ram); cbn [rbind]; eauto.
Qed.

(** X6: a mapped node reproduces its record: its identifier, first public
    address, state and name are what the accessors read off the record; it
    has no private address; [ram] and [isSandbox] are taken from the record,
    the sandbox flag being set only by the text [true]; and it carries the
    password exactly when a true one was passed. *)
Theorem to_node_fields :
  forall (element password : value) (n : Node),
    _to_node element password = Ok n ->
    _get_id element = Ok (id n)
    /\ (exists address, _get_ip element = Ok address
                        /\ public_ip n = [address])
    /\ _get_state element = Ok (state n)
    /\ getitem element "name" = Ok (name n)
    /\ private_ip n = []
    /\ (exists ram r, get element "ram" = Ok ram /\ get ram "name" = Ok r
                      /\ dict_lookup "ram" (extra n) = Some r)
    /\ (exists sb, getitem element "isSandbox" = Ok sb
                   /\ dict_lookup "isSandbox" (extra n)
                      = Some (PyBool (py_eq sb (PyStr "true"))))
    /\ dict_lookup "password" (extra n)
       = (if truth password then Some password else None).
Proof.
  intros element password n H.
  apply to_node_shape in H
    as (st & address & i & nm & ram & r & sb
        & Hst & Hip & Hid & Hname & Hram & Hr & Hsb & ->).
  cbv zeta.
  destruct (truth password); cbn [id public_ip state name private_ip extra set_extra];
    repeat split; eauto.
Qed.

Lemma to_node_fields_witness :
  exists n,
    _to_node (server_record [("id", PyInt 7)] "web" "208.113.0.7" "Restarting")
             (PyStr "s3cret") = Ok n
    /\ id n = PyInt 7
    /\ public_ip n = [PyStr "208.113.0.7"]
    /\ state n = REBOOTING
    /\ dict_lookup "password" (extra n) = Some (PyStr "s3cret").
Proof.
  destruct (_to_node (server_record [("id", PyInt 7)] "web" "208.113.0.7" "Restarting")
                     (PyStr "s3cret")) as [n|e] eqn:H;
    [|vm_compute in H; discriminate H].
  exists n. split; [reflexivity|].
  destruct (to_node_fields _ _ _ H)
    as (Hid & (address & Hip & Hpub) & Hst & _ & _ & _ & _ & Hpw).
  vm_compute in Hid, Hip, Hst.
  injection Hid as Hid. injection Hip as Hip. injection Hst as Hst.
  subst address.
  split; [symmetry; exact Hid|]. split; [exact Hpub|].
  split; [symmetry; exact Hst|exact Hpw].
Defined.

(** X7: the errors of [_to_node].  A record that is not a dictionary, or
    has no [ip] entry, raises [AttributeError]; with the [ip] structure in
    place, a record without [name] raises the [KeyError] of that key.  A
    missing identifier and a missing state are not errors: the node gets
    the identifier [None] and the state UNKNOWN. *)
Theorem to_node_missing_fields :
  forall (element password : value),
    ((forall d, element <> PyDict d) ->
     _to_node element password = Raise AttributeError)
    /\ (forall d, element = PyDict d -> dict_lookup "ip" d = None ->
        _to_node element password = Raise AttributeError)
    /\ (forall d ip, element = PyDict d ->
        dict_lookup "ip" d = Some (PyDict ip) ->
        dict_lookup "name" d = None ->
        _to_node element password = Raise (KeyError (PyStr "name")))
    /\ (forall d n, element = PyDict d ->
        _to_node element password = Ok n ->
        (dict_lookup "id" d = None -> id n = PyNone)
        /\ (dict_lookup "state" d = None -> state n = UNKNOWN)).
Proof.
  intros element password.
  destruct (get_state_total element) as [st Hst].
  split; [|split; [|split]].
  - intros Hnot. unfold _to_node, _get_ip. rewrite Hst. cbn [rbind].
    destruct element; try reflexivity. exfalso. eapply Hnot. reflexivity.
  - intros d -> Hip. unfold _to_node, _get_ip. rewrite Hst.
    cbn [rbind get]. rewrite Hip. reflexivity.
  - intros d ip -> Hip Hname. unfold _to_node, _get_ip, _get_id. rewrite Hst.
    cbn [rbind get getitem]. rewrite Hip, Hname. cbn [rbind get].
    destruct (dict_lookup "ip" ip); destruct (dict_lookup "id" d); reflexivity.
  - intros d n -> H.
    apply to_node_shape in H
      as (st' & address & i & nm & ram & r & sb
          & Hstate & _ & Hid & _ & _ & _ & _ & ->).
    cbv zeta.
    assert (Hfields : forall base : Node,
               id (if truth password then set_extra base "password" password
                   else base) = id base
               /\ state (if truth password
                         then set_extra base "password" password
                         else base) = state base)
      by (intros base; destruct (truth password); split; reflexivity).
    match goal with
    | |- context [if truth password then set_extra ?b _ _ else _] =>
        destruct (Hfields b) as [-> ->]
    end.
    cbn [id state].
    split.
    + intros Hmiss. unfold _get_id in Hid. cbn [get] in Hid.
      rewrite Hmiss in Hid. injection Hid as <-. reflexivity.
    + intros Hmiss. unfold _get_state in Hstate. cbn [getitem] in Hstate.
      rewrite Hmiss in Hstate. cbn in Hstate. injection Hstate as <-.
      reflexivity.
Qed.

(** ** [list_nodes] when a fetch or a password record fails *)

(** X8: when the server-list fetch raises, [list_nodes] raises the same
    error and the password list is never requested. *)
Theorem list_nodes_server_list_error :
  forall (provider : history -> result value) (h : history) (e : exn),
    provider (Request "/api/grid/server/list" [] "GET" :: h) = Raise e ->
    list_nodes provider h
    = (Raise e, Request "/api/grid/server/list" [] "GET" :: h).
Proof.
  intros provider h e He.
  unfold list_nodes, bind, _server_list, request. rewrite He. reflexivity.
Qed.

Lemma list_nodes_server_list_error_witness :
  list_nodes (scripted [Raise (InvalidCredsError "Invalid credentials")]) []
  = (Raise (InvalidCredsError "Invalid credentials"),
     [Request "/api/grid/server/list" [] "GET"]).
Proof.
  apply (list_nodes_server_list_error
           (scripted [Raise (InvalidCredsError "Invalid credentials")]) []).
  reflexivity.
Defined.

(** X9: of the errors of the password-list fetch only [InvalidCredsError]
    is swallowed: any other one is raised by [list_nodes], whatever the
    server list holds. *)
Theorem list_nodes_password_list_error :
  forall (provider : history -> result value) (h : history) (res : value)
         (e : exn),
    provider (Request "/api/grid/server/list" [] "GET" :: h) = Ok res ->
    provider (Request "/api/support/password/list" [] "GET"
                :: Request "/api/grid/server/list" [] "GET" :: h)
    = Raise e ->
    is_InvalidCredsError e = false ->
    list_nodes provider h
    = (Raise e,
       Request "/api/support/password/list" [] "GET"
         :: Request "/api/grid/server/list" [] "GET" :: h).
Proof.
  intros provider h res e Hres He Hnot.
  rewrite (list_nodes_run provider h res Hres).
  unfold after_password_list, after_server_list.
  rewrite He. cbn [rbind]. rewrite Hnot. reflexivity.
Qed.

Lemma list_nodes_password_list_error_witness :
  list_nodes
    (scripted [ Ok (envelope [server_record [("id", PyInt 7)] "web" "208.113.0.7" "On"]);
                Raise (OtherError "socket.timeout") ])
    []
  = (Raise (OtherError "socket.timeout"),
     [ Request "/api/support/password/list" [] "GET";
       Request "/api/grid/server/list" [] "GET" ]).
Proof.
  eapply (list_nodes_password_list_error
            (scripted [ Ok (envelope [server_record [("id", PyInt 7)] "web" "208.113.0.7" "On"]);
                        Raise (OtherError "socket.timeout") ])
            []); reflexivity.
Defined.

(** What escapes from the inner loop is a [TypeError]. *)
Lemma record_password_raises (m : pydict) (record : value) (e : exn) :
  record_password m record = Raise e -> e = TypeError.
Proof.
  unfold record_password, pydict_setitem.
  destruct record as [| | | | | |d]; cbn [getitem rbind try_except is_KeyError];
    try (intros [= <-]; reflexivity).
  destruct (dict_lookup "password" d) as [pw|];
    cbn [rbind try_except is_KeyError]; [|discriminate].
  destruct (dict_lookup "server" d) as [server|];
    cbn [rbind try_except is_KeyError]; [|discriminate].
  destruct server as [| | | | | |sd]; cbn [getitem rbind try_except is_KeyError];
    try (intros [= <-]; reflexivity).
  destruct (dict_lookup "id" sd) as [sid|];
    cbn [rbind try_except is_KeyError]; [|discriminate].
  destruct (hashable sid); cbn [rbind try_except is_KeyError];
    [discriminate|intros [= <-]; reflexivity].
Qed.

Lemma record_passwords_raises (records : list value) (m : pydict) (e : exn) :
  record_passwords m records = Raise e -> e = TypeError.
Proof.
  revert m. induction records as [|record rest IH]; intros m; simpl;
    [discriminate|].
  destruct (record_password m record) as [m1|e1] eqn:E1; simpl.
  - apply IH.
  - intros [= <-]. eapply record_password_raises. exact E1.
Qed.

Lemma record_passwords_stops (records : list value) (record : value) :
  In record records ->
  (forall m, exists e, record_password m record = Raise e) ->
  forall m, record_passwords m records = Raise TypeError.
Proof.
  intros Hin Hbad.
  induction records as [|r rest IH]; intros m; [destruct Hin|].
  simpl. destruct (record_password m r) as [m1|e1] eqn:E1; simpl.
  - destruct Hin as [->|Hin].
    + destruct (Hbad m) as [e He]. congruence.
    + apply IH. exact Hin.
  - apply record_password_raises in E1. subst. reflexivity.
Qed.

(** X10: the inner loop of [list_nodes] skips a password record only for a
    missing key.  A record that is not a dictionary, or that has a
    password but whose [server] entry is not a dictionary, makes
    [list_nodes] raise [TypeError], wherever it stands in the list and
    whatever the server list holds. *)
Theorem list_nodes_bad_password_record :
  forall (provider : history -> result value) (h : history)
         (res passwords : value) (records : list value) (record : value),
    provider (Request "/api/grid/server/list" [] "GET" :: h) = Ok res ->
    provider (Request "/api/support/password/list" [] "GET"
                :: Request "/api/grid/server/list" [] "GET" :: h)
    = Ok passwords ->
    rbind (getitem passwords "list") py_iter = Ok records ->
    In record records ->
    (is_dict record = false
     \/ exists d pw server,
          record = PyDict d
          /\ dict_lookup "password" d = Some pw
          /\ dict_lookup "server" d = Some server
          /\ is_dict server = false) ->
    list_nodes provider h
    = (Raise TypeError,
       Request "/api/support/password/list" [] "GET"
         :: Request "/api/grid/server/list" [] "GET" :: h).
Proof.
  intros provider h res passwords records record Hres Hpw Hrecords Hin Hbad.
  rewrite (list_nodes_run provider h res Hres).
  unfold after_password_list, after_server_list.
  rewrite Hpw. cbn [rbind]. unfold fill_passwords_map.
  apply bind_ok in Hrecords as (entries & -> & Hiter). cbn [rbind].
  rewrite Hiter. cbn [rbind].
  rewrite (record_passwords_stops records record Hin); [reflexivity|].
  intros m. unfold record_password.
  destruct Hbad as [Hnd|(d & pw & server & -> & Hp & Hs & Hnd)].
  - destruct record; try discriminate Hnd; eexists; reflexivity.
  - cbn [getitem]. rewrite Hp, Hs. cbn [rbind].
    destruct server; try discriminate Hnd; eexists; reflexivity.
Qed.

Lemma list_nodes_bad_password_record_witness :
  list_nodes
    (scripted [ Ok (envelope [server_record [("id", PyInt 7)] "web" "208.113.0.7" "On"]);
                Ok (envelope [ password_record 7 "s3cret";
                               PyDict [("server", PyNone); ("password", PyStr "x")] ]) ])
    []
  = (Raise TypeError,
     [ Request "/api/support/password/list" [] "GET";
       Request "/api/grid/server/list" [] "GET" ]).
Proof.
  eapply (list_nodes_bad_password_record
            (scripted [ Ok (envelope [server_record [("id", PyInt 7)] "web" "208.113.0.7" "On"]);
                        Ok (envelope [ password_record 7 "s3cret";
                                       PyDict [("server", PyNone); ("password", PyStr "x")] ]) ])
            [] _ _ _ (PyDict [("server", PyNone); ("password", PyStr "x")]));
    try reflexivity.
  - right. left. reflexivity.
  - right. exists [("server", PyNone); ("password", PyStr "x")], (PyStr "x"), PyNone.
    repeat split; reflexivity.
Defined.

(** ** [ex_create_node_nowait] *)

Lemma get_first_ip_history (provider : history -> result value)
    (location : option value) (h h1 : history) (r : result value) :
  _get_first_ip provider location h = (r, h1) ->
  h1 = Request "/api/grid/ip/list" (ip_list_params location) "GET" :: h.
Proof.
  unfold _get_first_ip, bind, request, lift. cbv zeta.
  destruct (provider _) as [object|e]; intros [= _ <-]; reflexivity.
Qed.

(** X11: [ex_create_node_nowait] asks for a server only after it has an
    address.  When [_get_first_ip] raises, for want of an unassigned
    address or otherwise, the same error is raised and the address listing
    is the only request made. *)
Theorem ex_create_node_nowait_without_ip :
  forall (provider : history -> result value) (kwargs : create_kwargs)
         (h h1 : history) (e : exn),
    _get_first_ip provider (kw_location kwargs) h = (Raise e, h1) ->
    ex_create_node_nowait provider kwargs h = (Raise e, h1)
    /\ h1 = Request "/api/grid/ip/list" (ip_list_params (kw_location kwargs))
                    "GET" :: h.
Proof.
  intros provider kwargs h h1 e Hip. split.
  - unfold ex_create_node_nowait, bind. rewrite Hip. reflexivity.
  - eapply get_first_ip_history. exact Hip.
Qed.

Lemma ex_create_node_nowait_without_ip_witness :
  ex_create_node_nowait (scripted [Ok (envelope [])]) sample_kwargs []
  = (Raise (LibcloudError "No public unassigned IPs left"),
     [Request "/api/grid/ip/list" (ip_list_params None) "GET"]).
Proof.
  apply (ex_create_node_nowait_without_ip
           (scripted [Ok (envelope [])]) sample_kwargs []).
  reflexivity.
Defined.

(** X12: once [_get_first_ip] has returned an address,
    [ex_create_node_nowait] posts one provisioning request that carries
    this address under [ip], and answers with the first record of the reply
    mapped without a password; an empty reply raises [IndexError], the
    request having been made. *)
Theorem ex_create_node_nowait_request :
  forall (provider : history -> result value) (kwargs : create_kwargs)
         (h h1 : history) (first_ip object : value),
    _get_first_ip provider (kw_location kwargs) h = (Ok first_ip, h1) ->
    provider (Request "/api/grid/server/add"
                (server_add_params kwargs first_ip) "POST" :: h1)
    = Ok object ->
    dict_lookup "ip" (server_add_params kwargs first_ip) = Some first_ip
    /\ (forall first rest,
           getitem object "list" = Ok (PyList (first :: rest)) ->
           ex_create_node_nowait provider kwargs h
           = (_to_node first PyNone,
              Request "/api/grid/server/add"
                (server_add_params kwargs first_ip) "POST" :: h1)
           /\ forall node, _to_node first PyNone = Ok node ->
                           dict_lookup "password" (extra node) = None)
    /\ (getitem object "list" = Ok (PyList []) ->
        ex_create_node_nowait provider kwargs h
        = (Raise IndexError,
           Request "/api/grid/server/add"
             (server_add_params kwargs first_ip) "POST" :: h1)).
Proof.
  intros provider kwargs h h1 first_ip object Hip Hobj.
  split; [reflexivity|].
  unfold ex_create_node_nowait, bind, lift. rewrite Hip. cbv zeta.
  unfold request, server_add_params in *. rewrite Hobj. split.
  - intros first rest Hlist. rewrite Hlist. cbn [rbind getitem0].
    split; [reflexivity|].
    intros node Hnode.
    destruct (to_node_inv _ _ _ Hnode) as (_ & _ & Hextra & _). exact Hextra.
  - intros Hlist. rewrite Hlist. reflexivity.
Qed.

Lemma ex_create_node_nowait_request_witness :
  exists node,
    ex_create_node_nowait
      (scripted [ Ok (envelope [PyDict [("ip", PyStr "208.113.0.7")]]);
                  Ok (envelope [server_record [] "web" "208.113.0.7" "Starting"]) ])
      sample_kwargs []
    = (Ok node,
       [ Request "/api/grid/server/add"
           (server_add_params sample_kwargs (PyStr "208.113.0.7")) "POST";
         Request "/api/grid/ip/list" (ip_list_params None) "GET" ])
    /\ id node = PyNone
    /\ dict_lookup "password" (extra node) = None.
Proof.
  pose proof (ex_create_node_nowait_request
                (scripted [ Ok (envelope [PyDict [("ip", PyStr "208.113.0.7")]]);
                            Ok (envelope [server_record [] "web" "208.113.0.7" "Starting"]) ])
                sample_kwargs [] _ (PyStr "208.113.0.7") _ eq_refl eq_refl)
    as (_ & Hrun & _).
  destruct (Hrun _ [] eq_refl) as [Heq Hpw].
  eexists. split; [rewrite Heq; reflexivity|].
  split; [reflexivity|]. apply Hpw. reflexivity.
Defined.

(** ** [create_node]: the other ways out of the loop *)

(** A call of [list_nodes] requests the server list once and does not
    sleep. *)
Lemma list_nodes_counts (provider : history -> result value) (h h1 : history)
    (r : result (list Node)) :
  list_nodes provider h = (r, h1) ->
  polls h1 = S (polls h) /\ slept h1 = slept h.
Proof.
  intros Hrun.
  destruct (provider (after_server_list h)) as [res|e] eqn:Hres.
  - rewrite (list_nodes_run provider h res Hres) in Hrun.
    assert (h1 = after_password_list h) as ->.
    { apply (f_equal snd) in Hrun.
      destruct (rbind _ fill_passwords_map) as [m|e];
        [|destruct (is_InvalidCredsError e)]; symmetry; exact Hrun. }
    split; reflexivity.
  - unfold list_nodes, bind, _server_list, request in Hrun.
    change (Request "/api/grid/server/list" [] "GET" :: h)
      with (after_server_list h) in Hrun.
    rewrite Hres in Hrun.
    apply (f_equal snd) in Hrun. cbn [snd] in Hrun. subst h1.
    split; reflexivity.
Qed.

Lemma ex_create_node_nowait_counts (provider : history -> result value)
    (kwargs : create_kwargs) (h h1 : history) (r : result Node) :
  ex_create_node_nowait provider kwargs h = (r, h1) ->
  polls h1 = polls h /\ slept h1 = slept h.
Proof.
  unfold ex_create_node_nowait, bind, lift.
  destruct (_get_first_ip provider (kw_location kwargs) h) as [[ip|e] h'] eqn:Hip;
    apply get_first_ip_history in Hip; subst h'.
  - cbv zeta. unfold request.
    destruct (provider _) as [object|e]; intros H;
      apply (f_equal snd) in H; cbn [snd] in H; subst h1; split; reflexivity.
  - intros H. apply (f_equal snd) in H. cbn [snd] in H. subst h1.
    split; reflexivity.
Qed.

Lemma wait_for_id_counts (provider : history -> result value)
    (str_Node : Node -> string) (node : Node) (fuel : nat) :
  forall (w : Z) (h h' : history) (r : result Node),
    wait_for_id provider str_Node fuel node w h = Some (r, h') ->
    (polls h' <= polls h + fuel)%nat
    /\ slept h <= slept h' <= slept h + Z.of_nat fuel * interval.
Proof.
  assert (Hi : 0 < interval) by reflexivity.
  induction fuel as [|fuel IH]; intros w h h' r; cbn [wait_for_id].
  - destruct (is_None (id node) && (w <? timeout)); [discriminate|].
    unfold builtin_id_is_None. intros [= _ <-]. lia.
  - destruct (is_None (id node) && (w <? timeout)).
    + destruct (list_nodes provider h) as [[nodes|e] h1] eqn:Hlist;
        apply list_nodes_counts in Hlist as [Hp Hs].
      * destruct (first_match node nodes) as [[i|]|e].
        -- intros [= _ <-]. lia.
        -- cbn [sleep]. intros Hrest. apply IH in Hrest.
           cbn [slept] in Hrest. unfold polls in *. cbn [filter is_server_list] in Hrest.
           lia.
        -- intros [= _ <-]. lia.
      * intros [= _ <-]. lia.
    + unfold builtin_id_is_None. intros [= _ <-]. lia.
Qed.

Lemma create_node_counts (provider : history -> result value)
    (str_Node : Node -> string) (kwargs : create_kwargs) (h0 h' : history)
    (r : result Node) :
  create_node provider str_Node kwargs h0 = Some (r, h') ->
  (polls h' <= polls h0 + 10)%nat
  /\ slept h0 <= slept h' <= slept h0 + timeout.
Proof.
  intros Hrun. unfold create_node in Hrun.
  destruct (ex_create_node_nowait provider kwargs h0) as [[node|e] h1] eqn:Hcreate;
    apply ex_create_node_nowait_counts in Hcreate as [Hp Hs].
  - apply wait_for_id_counts in Hrun.
    change (Z.to_nat (timeout / interval)) with 10%nat in Hrun.
    change (Z.of_nat 10 * interval) with timeout in Hrun. lia.
  - injection Hrun as _ <-. unfold timeout. lia.
Qed.

(** X13: [create_node] always comes to an end, after at most ten server
    listings and at most twenty minutes of sleep, whatever the provider
    answers. *)
Theorem create_node_bounded :
  forall (provider : history -> result value) (str_Node : Node -> string)
         (kwargs : create_kwargs) (h0 : history),
    exists r h',
      create_node provider str_Node kwargs h0 = Some (r, h')
      /\ (polls h' <= polls h0 + 10)%nat
      /\ slept h0 <= slept h' <= slept h0 + timeout.
Proof.
  intros provider str_Node kwargs h0.
  destruct (create_node_terminates provider str_Node kwargs h0) as [[r h'] Hrun].
  exists r, h'. split; [exact Hrun|].
  eapply create_node_counts. exact Hrun.
Qed.

(** X14: when the provisioning reply already carries the identifier,
    [create_node] returns that node at once: no listing, no sleep. *)
Theorem create_node_identified_at_once :
  forall (provider : history -> result value) (str_Node : Node -> string)
         (kwargs : create_kwargs) (h0 h1 : history) (node : Node),
    ex_create_node_nowait provider kwargs h0 = (Ok node, h1) ->
    is_None (id node) = false ->
    create_node provider str_Node kwargs h0 = Some (Ok node, h1).
Proof.
  intros provider str_Node kwargs h0 h1 node Hcreate Hid.
  unfold create_node. rewrite Hcreate.
  change (Z.to_nat (timeout / interval)) with 10%nat.
  cbn [wait_for_id]. rewrite Hid. reflexivity.
Qed.

Lemma create_node_identified_at_once_witness :
  exists node h1,
    create_node
      (scripted [ Ok (envelope [PyDict [("ip", PyStr "208.113.0.7")]]);
                  Ok (envelope [server_record [("id", PyInt 9)] "web" "208.113.0.7" "Starting"]) ])
      (fun _ => "node") sample_kwargs []
    = Some (Ok node, h1)
    /\ id node = PyInt 9
    /\ polls h1 = 0%nat /\ slept h1 = 0.
Proof.
  eexists. eexists. split.
  - eapply (create_node_identified_at_once
              (scripted [ Ok (envelope [PyDict [("ip", PyStr "208.113.0.7")]]);
                          Ok (envelope [server_record [("id", PyInt 9)] "web" "208.113.0.7" "Starting"]) ])
              (fun _ => "node") sample_kwargs []).
    + vm_compute. reflexivity.
    + reflexivity.
  - repeat split; reflexivity.
Defined.

(** X15: an error raised by a poll ends [create_node]: the error of
    [list_nodes] is raised as it is, without another try and without a
    sleep. *)
Theorem create_node_poll_error :
  forall (provider : history -> result value) (str_Node : Node -> string)
         (kwargs : create_kwargs) (h0 h1 h h' : history) (node : Node)
         (w : Z) (e : exn),
    ex_create_node_nowait provider kwargs h0 = (Ok node, h1) ->
    id node = PyNone ->
    poll_reaches provider node 0 h1 w h ->
    w < timeout ->
    list_nodes provider h = (Raise e, h') ->
    create_node provider str_Node kwargs h0 = Some (Raise e, h').
Proof.
  intros provider str_Node kwargs h0 h1 h h' node w e
         Hcreate Hid Hreach Hw Hlist.
  unfold create_node. rewrite Hcreate.
  destruct (wait_for_id_reaches provider str_Node node 0 w h1 h Hreach
              (Z.to_nat (timeout / interval)))
    as (fuel' & Hfuel' & ->).
  { vm_compute. discriminate. }
  destruct fuel' as [|fuel']; [unfold interval in *; lia|].
  cbn [wait_for_id]. rewrite Hid. cbn [is_None andb].
  destruct (Z.ltb_spec w timeout) as [_|Hge]; [|lia].
  rewrite Hlist. reflexivity.
Qed.

Lemma create_node_poll_error_witness :
  exists h',
    create_node
      (scripted [ Ok (envelope [PyDict [("ip", PyStr "208.113.0.7")]]);
                  Ok (envelope [server_record [] "web" "208.113.0.7" "Starting"]);
                  Raise (InvalidCredsError "Invalid credentials") ])
      (fun _ => "node") sample_kwargs []
    = Some (Raise (InvalidCredsError "Invalid credentials"), h')
    /\ polls h' = 1%nat /\ slept h' = 0.
Proof.
  eexists. split.
  - eapply (create_node_poll_error
              (scripted [ Ok (envelope [PyDict [("ip", PyStr "208.113.0.7")]]);
                          Ok (envelope [server_record [] "web" "208.113.0.7" "Starting"]);
                          Raise (InvalidCredsError "Invalid credentials") ])
              (fun _ => "node") sample_kwargs []).
    + vm_compute. reflexivity.
    + reflexivity.
    + apply reaches_here.
    + reflexivity.
    + vm_compute. reflexivity.
  - split; reflexivity.
Defined.

(** X16: when the loop comes to the deadline without having found a match,
    [create_node] raises nothing: it returns the node as it was created,
    and the history shows the polls and sleeps of the loop and nothing
    after them. *)
Theorem create_node_deadline :
  forall (provider : history -> result value) (str_Node : Node -> string)
         (kwargs : create_kwargs) (h0 h1 h : history) (node : Node) (w : Z),
    ex_create_node_nowait provider kwargs h0 = (Ok node, h1) ->
    poll_reaches provider node 0 h1 w h ->
    timeout <= w ->
    create_node provider str_Node kwargs h0 = Some (Ok node, h)
    /\ (polls h <= polls h0 + 10)%nat
    /\ slept h <= slept h0 + timeout.
Proof.
  intros provider str_Node kwargs h0 h1 h node w Hcreate Hreach Hw.
  pose proof (create_node_past_deadline provider str_Node kwargs h0 h1 h node w
                Hcreate Hreach Hw) as Hrun.
  split; [exact Hrun|].
  apply create_node_counts in Hrun. lia.
Qed.

Lemma create_node_deadline_witness :
  exists node h,
    create_node stalled_provider (fun _ => "") sample_kwargs []
    = Some (Ok node, h)
    /\ id node = PyNone /\ polls h = 10%nat /\ slept h = timeout.
Proof.
  destruct (ex_create_node_nowait stalled_provider sample_kwargs [])
    as [created h1] eqn:Hcreate.
  vm_compute in Hcreate. injection Hcreate as <- <-.
  eexists. eexists. split.
  - eapply (create_node_deadline stalled_provider (fun _ => "") sample_kwargs []).
    + vm_compute. reflexivity.
    + repeat (eapply reaches_retry;
              [reflexivity|reflexivity|vm_compute; reflexivity|reflexivity|]).
      apply reaches_here.
    + vm_compute. discriminate.
  - repeat split; reflexivity.
Defined.

(** ** [reboot_node] and [destroy_node] *)

Section PowerProperties.

Variable json_loads : string -> result value.
Variable transport : history -> result Response.

(** What both operations do with the response they got. *)
Lemma classified (res : Response) (h1 : history) :
  bind (lift (success json_loads res))
       (fun ok =>
          if negb (truth ok) then
            bind (lift (parse_error json_loads res))
                 (fun message => lift (Raise (PyException message)))
          else ret (PyBool true)) h1
  = (match success json_loads res with
     | Ok (PyBool true) => Ok (PyBool true)
     | Ok _ =>
         match parse_error json_loads res with
         | Ok message => Raise (PyException message)
         | Raise e => Raise e
         end
     | Raise e => Raise e
     end, h1).
Proof.
  unfold bind, lift, ret.
  destruct (success json_loads res) as [v|e] eqn:Hs; [|reflexivity].
  pose proof (success_cases json_loads res v Hs)
    as (_ & _ & [[_ ->]|(_ & d & field & _ & _ & ->)]).
  - cbn [truth negb].
    destruct (parse_error json_loads res); reflexivity.
  - destruct (py_eq field (PyStr "success")); cbn [truth negb];
      [reflexivity|].
    destruct (parse_error json_loads res); reflexivity.
Qed.

Lemma reboot_node_run (node : Node) (h : history) (res : Response) :
  transport (Request "/api/grid/server/power"
               [("id", id node); ("power", PyStr "restart")] "POST" :: h)
  = Ok res ->
  reboot_node json_loads transport node h
  = (match success json_loads res with
     | Ok (PyBool true) => Ok (PyBool true)
     | Ok _ =>
         match parse_error json_loads res with
         | Ok message => Raise (PyException message)
         | Raise e => Raise e
         end
     | Raise e => Raise e
     end,
     Request "/api/grid/server/power"
       [("id", id node); ("power", PyStr "restart")] "POST" :: h).
Proof.
  intros Hres. unfold reboot_node. cbv zeta.
  unfold bind at 1. unfold _server_power, request_response. rewrite Hres.
  apply classified.
Qed.

Lemma destroy_node_run (node : Node) (h : history) (res : Response) :
  transport (Request "/api/grid/server/delete" [("id", id node)] "POST" :: h)
  = Ok res ->
  destroy_node json_loads transport node h
  = (match success json_loads res with
     | Ok (PyBool true) => Ok (PyBool true)
     | Ok _ =>
         match parse_error json_loads res with
         | Ok message => Raise (PyException message)
         | Raise e => Raise e
         end
     | Raise e => Raise e
     end,
     Request "/api/grid/server/delete" [("id", id node)] "POST" :: h).
Proof.
  intros Hres. unfold destroy_node. cbv zeta.
  unfold bind at 1. unfold _server_delete, request_response. rewrite Hres.
  apply classified.
Qed.

End PowerProperties.

(** What the classification of a response comes to, case by case. *)
Lemma outcome_facts (json_loads : string -> result value) (res : Response)
    (out : result value) :
  out = match success json_loads res with
        | Ok (PyBool true) => Ok (PyBool true)
        | Ok _ =>
            match parse_error json_loads res with
            | Ok message => Raise (PyException message)
            | Raise e => Raise e
            end
        | Raise e => Raise e
        end ->
  (forall v, out = Ok v ->
             v = PyBool true /\ success json_loads res = Ok (PyBool true))
  /\ (success json_loads res = Ok (PyBool true) -> out = Ok (PyBool true))
  /\ (status res = 403 -> out = Raise (InvalidCredsError "Invalid credentials"))
  /\ (status res = 401 ->
      out = Raise (InvalidCredsError "API Key has insufficient rights"))
  /\ (status res <> 403 -> status res <> 401 -> body res = "" ->
      json_loads "" = Raise ValueError ->
      out = Raise (PyException PyNone))
  /\ (forall d field,
         status res <> 403 -> status res <> 401 -> body res <> "" ->
         json_loads (body res) = Ok (PyDict d) ->
         dict_lookup "status" d = Some field ->
         py_eq field (PyStr "success") = false ->
         (forall first rest message,
             dict_lookup "list" d = Some (PyList (first :: rest)) ->
             getitem first "message" = Ok message ->
             out = Raise (PyException message))
         /\ (dict_lookup "list" d = None ->
             out = Raise (KeyError (PyStr "list")))).
Proof.
  intros ->. split; [|split; [|split; [|split; [|split]]]].
  - intros v Hv.
    destruct (success json_loads res) as [[|[|]| | | | |]|e];
      try (destruct (parse_error json_loads res); discriminate Hv);
      try discriminate Hv.
    injection Hv as <-. split; reflexivity.
  - intros ->. reflexivity.
  - intros H. rewrite (success_403 json_loads res H). reflexivity.
  - intros H. rewrite (success_401 json_loads res H). reflexivity.
  - intros H403 H401 Hb Hdec.
    rewrite (success_empty_body json_loads res H403 H401 Hb).
    unfold parse_error. rewrite Hb, Hdec. reflexivity.
  - intros d field H403 H401 Hb Hdec Hfield Hne.
    rewrite (success_decoding json_loads res H403 H401 Hb).
    unfold parse_error. rewrite Hdec. cbn [rbind getitem try_except].
    rewrite Hfield. cbn [rbind try_except]. rewrite Hne. split.
    + intros first rest message Hlist Hmsg. rewrite Hlist.
      cbn [rbind getitem0]. rewrite Hmsg. reflexivity.
    + intros Hlist. rewrite Hlist. reflexivity.
Qed.

(** X17: [reboot_node] posts one power request with the node's identifier
    and the action [restart].  It returns only [True], and exactly when
    [success] says [True].  Status 403 and 401 raise the authentication
    errors; an empty body raises [Exception(None)]; a decoded body whose
    status is not [success] raises [Exception] with the message of its
    first list entry, and the [KeyError] of [list] when it has no list. *)
Theorem reboot_node_outcomes :
  forall (json_loads : string -> result value)
         (transport : history -> result Response)
         (node : Node) (h : history) (res : Response),
    transport (Request "/api/grid/server/power"
                 [("id", id node); ("power", PyStr "restart")] "POST" :: h)
    = Ok res ->
    snd (reboot_node json_loads transport node h)
    = Request "/api/grid/server/power"
        [("id", id node); ("power", PyStr "restart")] "POST" :: h
    /\ (forall v, fst (reboot_node json_loads transport node h) = Ok v ->
                  v = PyBool true
                  /\ success json_loads res = Ok (PyBool true))
    /\ (success json_loads res = Ok (PyBool true) ->
        fst (reboot_node json_loads transport node h) = Ok (PyBool true))
    /\ (status res = 403 ->
        fst (reboot_node json_loads transport node h)
        = Raise (InvalidCredsError "Invalid credentials"))
    /\ (status res = 401 ->
        fst (reboot_node json_loads transport node h)
        = Raise (InvalidCredsError "API Key has insufficient rights"))
    /\ (status res <> 403 -> status res <> 401 -> body res = "" ->
        json_loads "" = Raise ValueError ->
        fst (reboot_node json_loads transport node h)
        = Raise (PyException PyNone))
    /\ (forall d field,
           status res <> 403 -> status res <> 401 -> body res <> "" ->
           json_loads (body res) = Ok (PyDict d) ->
           dict_lookup "status" d = Some field ->
           py_eq field (PyStr "success") = false ->
           (forall first rest message,
               dict_lookup "list" d = Some (PyList (first :: rest)) ->
               getitem first "message" = Ok message ->
               fst (reboot_node json_loads transport node h)
               = Raise (PyException message))
           /\ (dict_lookup "list" d = None ->
               fst (reboot_node json_loads transport node h)
               = Raise (KeyError (PyStr "list")))).
Proof.
  intros json_loads transport node h res Hres.
  rewrite (reboot_node_run json_loads transport node h res Hres).
  cbn [fst snd]. split; [reflexivity|].
  apply outcome_facts. reflexivity.
Qed.

Lemma reboot_node_outcomes_witness :
  fst (reboot_node Json.loads
         (fun _ => Ok (mkResponse 200 (wire "{'status': 'success', 'list': []}")))
         (mkNode (PyInt 7) (PyStr "web") RUNNING [] [] []) [])
  = Ok (PyBool true)
  /\ fst (reboot_node Json.loads
            (fun _ => Ok (mkResponse 200
                            (wire "{'status': 'failure', 'list': [{'message': 'No such server'}]}")))
            (mkNode (PyInt 7) (PyStr "web") RUNNING [] [] []) [])
     = Raise (PyException (PyStr "No such server"))
  /\ fst (reboot_node Json.loads (fun _ => Ok (mkResponse 200 ""))
            (mkNode (PyInt 7) (PyStr "web") RUNNING [] [] []) [])
     = Raise (PyException PyNone).
Proof.
  split; [|split].
  - eapply (reboot_node_outcomes Json.loads
              (fun _ => Ok (mkResponse 200 (wire "{'status': 'success', 'list': []}"))));
      [reflexivity|vm_compute; reflexivity].
  - pose proof (reboot_node_outcomes Json.loads
                  (fun _ => Ok (mkResponse 200
                                  (wire "{'status': 'failure', 'list': [{'message': 'No such server'}]}")))
                  (mkNode (PyInt 7) (PyStr "web") RUNNING [] [] []) [] _ eq_refl)
      as (_ & _ & _ & _ & _ & _ & H).
    eapply (H _ (PyStr "failure"));
      try discriminate; try (vm_compute; reflexivity); reflexivity.
  - pose proof (reboot_node_outcomes Json.loads (fun _ => Ok (mkResponse 200 ""))
                  (mkNode (PyInt 7) (PyStr "web") RUNNING [] [] []) [] _ eq_refl)
      as (_ & _ & _ & _ & _ & H & _).
    apply H; [discriminate|discriminate|reflexivity|reflexivity].
Defined.

(** X18: [destroy_node] posts one delete request with the node's
    identifier and classifies the response as [reboot_node] does: [True]
    exactly when [success] says [True], the authentication errors for 403
    and 401, [Exception(None)] for an empty body, [Exception] with the first
    list entry's message for a decoded non-success body, and the [KeyError]
    of [list] when that body has no list. *)
Theorem destroy_node_outcomes :
  forall (json_loads : string -> result value)
         (transport : history -> result Response)
         (node : Node) (h : history) (res : Response),
    transport (Request "/api/grid/server/delete" [("id", id node)] "POST" :: h)
    = Ok res ->
    snd (destroy_node json_loads transport node h)
    = Request "/api/grid/server/delete" [("id", id node)] "POST" :: h
    /\ (forall v, fst (destroy_node json_loads transport node h) = Ok v ->
                  v = PyBool true
                  /\ success json_loads res = Ok (PyBool true))
    /\ (success json_loads res = Ok (PyBool true) ->
        fst (destroy_node json_loads transport node h) = Ok (PyBool true))
    /\ (status res = 403 ->
        fst (destroy_node json_loads transport node h)
        = Raise (InvalidCredsError "Invalid credentials"))
    /\ (status res = 401 ->
        fst (destroy_node json_loads transport node h)
        = Raise (InvalidCredsError "API Key has insufficient rights"))
    /\ (status res <> 403 -> status res <> 401 -> body res = "" ->
        json_loads "" = Raise ValueError ->
        fst (destroy_node json_loads transport node h)
        = Raise (PyException PyNone))
    /\ (forall d field,
           status res <> 403 -> status res <> 401 -> body res <> "" ->
           json_loads (body res) = Ok (PyDict d) ->
           dict_lookup "status" d = Some field ->
           py_eq field (PyStr "success") = false ->
           (forall first rest message,
               dict_lookup "list" d = Some (PyList (first :: rest)) ->
               getitem first "message" = Ok message ->
               fst (destroy_node json_loads transport node h)
               = Raise (PyException message))
           /\ (dict_lookup "list" d = None ->
               fst (destroy_node json_loads transport node h)
               = Raise (KeyError (PyStr "list")))).
Proof.
  intros json_loads transport node h res Hres.
  rewrite (destroy_node_run json_loads transport node h res Hres).
  cbn [fst snd]. split; [reflexivity|].
  apply outcome_facts. reflexivity.
Qed.

Lemma destroy_node_outcomes_witness :
  fst (destroy_node Json.loads
         (fun _ => Ok (mkResponse 200 (wire "{'status': 'success'}")))
         (mkNode (PyInt 7) (PyStr "web") RUNNING [] [] []) [])
  = Ok (PyBool true)
  /\ fst (destroy_node Json.loads
            (fun _ => Ok (mkResponse 200 (wire "{'status': 'failure'}")))
            (mkNode (PyInt 7) (PyStr "web") RUNNING [] [] []) [])
     = Raise (KeyError (PyStr "list"))
  /\ fst (destroy_node Json.loads (fun _ => Ok (mkResponse 403 ""))
            (mkNode (PyInt 7) (PyStr "web") RUNNING [] [] []) [])
     = Raise (InvalidCredsError "Invalid credentials").
Proof.
  split; [|split].
  - eapply (destroy_node_outcomes Json.loads
              (fun _ => Ok (mkResponse 200 (wire "{'status': 'success'}"))));
      [reflexivity|vm_compute; reflexivity].
  - pose proof (destroy_node_outcomes Json.loads
                  (fun _ => Ok (mkResponse 200 (wire "{'status': 'failure'}")))
                  (mkNode (PyInt 7) (PyStr "web") RUNNING [] [] []) [] _ eq_refl)
      as (_ & _ & _ & _ & _ & _ & H).
    eapply (H _ (PyStr "failure"));
      try discriminate; try (vm_compute; reflexivity); reflexivity.
  - pose proof (destroy_node_outcomes Json.loads (fun _ => Ok (mkResponse 403 ""))
                  (mkNode (PyInt 7) (PyStr "web") RUNNING [] [] []) [] _ eq_refl)
      as (_ & _ & _ & H & _).
    apply H. reflexivity.
Defined.

(** ** Images and locations *)

Lemma to_image_ok (element : value) (image : NodeImage) :
  _to_image element = Ok image
  <-> getitem element "id" = Ok (image_id image)
      /\ getitem element "friendlyName" = Ok (image_name image).
Proof.
  unfold _to_image. split.
  - intros H. apply bind_ok in H as (i & Hi & H).
    apply bind_ok in H as (n & Hn & [= <-]). auto.
  - intros [-> ->]. destruct image. reflexivity.
Qed.

Lemma to_location_ok (element : value) (location : NodeLocation) :
  _to_location element = Ok location
  <-> getitem element "id" = Ok (location_id location)
      /\ getitem element "name" = Ok (location_name location)
      /\ location_country location = "US".
Proof.
  unfold _to_location. split.
  - intros H. apply bind_ok in H as (i & Hi & H).
    apply bind_ok in H as (n & Hn & [= <-]). auto.
  - intros (-> & -> & Hc). destruct location. simpl in Hc. subst.
    reflexivity.
Qed.

(** X19: [_to_images] returns a list exactly when the object has a [list]
    that can be iterated and every record of it has an [id] and a
    [friendlyName]; the images are then the records in order, each with its
    record's identifier and friendly name. *)
Theorem to_images_spec :
  forall (object : value) (images : list NodeImage),
    _to_images object = Ok images
    <-> exists els,
          rbind (getitem object "list") py_iter = Ok els
          /\ Forall2
               (fun el image =>
                  getitem el "id" = Ok (image_id image)
                  /\ getitem el "friendlyName" = Ok (image_name image))
               els images.
Proof.
  intros object images. unfold _to_images. split.
  - intros H. apply bind_ok in H as (entries & He & H).
    apply bind_ok in H as (els & Hi & H).
    exists els. rewrite He. split; [exact Hi|].
    apply comprehension_ok in H.
    eapply Forall2_impl; [|exact H]. intros el im. apply to_image_ok.
  - intros (els & Hels & Hall).
    apply bind_ok in Hels as (entries & -> & Hi). cbn [rbind].
    rewrite Hi. cbn [rbind]. apply comprehension_ok.
    eapply Forall2_impl; [|exact Hall]. intros el im. apply to_image_ok.
Qed.

(** X20: [_to_locations] returns a list exactly when the object has a
    [list] that can be iterated and every record of it has an [id] and a
    [name]; the locations are then the records in order, each with its
    record's identifier and name, and every one of them in the country
    [US]. *)
Theorem to_locations_spec :
  forall (object : value) (locations : list NodeLocation),
    _to_locations object = Ok locations
    <-> exists els,
          rbind (getitem object "list") py_iter = Ok els
          /\ Forall2
               (fun el location =>
                  getitem el "id" = Ok (location_id location)
                  /\ getitem el "name" = Ok (location_name location)
                  /\ location_country location = "US")
               els locations.
Proof.
  intros object locations. unfold _to_locations. split.
  - intros H. apply bind_ok in H as (entries & He & H).
    apply bind_ok in H as (els & Hi & H).
    exists els. rewrite He. split; [exact Hi|].
    apply comprehension_ok in H.
    eapply Forall2_impl; [|exact H]. intros el loc. apply to_location_ok.
  - intros (els & Hels & Hall).
    apply bind_ok in Hels as (entries & -> & Hi). cbn [rbind].
    rewrite Hi. cbn [rbind]. apply comprehension_ok.
    eapply Forall2_impl; [|exact Hall]. intros el loc. apply to_location_ok.
Qed.

Lemma comprehension_raises {A B} (f : A -> result B) (pre post : list A)
    (bad : A) (e : exn) :
  (forall el, In el pre -> exists x, f el = Ok x) ->
  f bad = Raise e ->
  comprehension f (pre ++ bad :: post) = Raise e.
Proof.
  intros Hpre Hbad. induction pre as [|el pre IH]; simpl.
  - rewrite Hbad. reflexivity.
  - destruct (Hpre el (or_introl eq_refl)) as [x ->]. cbn [rbind].
    rewrite IH; [reflexivity|]. intros y Hy. apply Hpre. right. exact Hy.
Qed.

(** X21: [ex_save_image] posts one save request with the node's identifier
    and the new name.  It maps every record of the reply before it takes
    the first image: it returns the image of the first record when all
    records have an [id] and a [friendlyName], raises [IndexError] when the
    reply lists nothing, and when a later record lacks a key raises that
    record's [KeyError] although the first record was complete. *)
Theorem ex_save_image_spec :
  forall (provider : history -> result value) (node : Node) (name : value)
         (h : history) (object : value),
    provider (Request "/api/grid/image/save"
                [("server", id node); ("friendlyName", name)] "POST" :: h)
    = Ok object ->
    snd (ex_save_image provider node name h)
    = Request "/api/grid/image/save"
        [("server", id node); ("friendlyName", name)] "POST" :: h
    /\ (forall first rest image,
           getitem object "list" = Ok (PyList (first :: rest)) ->
           (forall el, In el (first :: rest) ->
                       exists im, _to_image el = Ok im) ->
           _to_image first = Ok image ->
           fst (ex_save_image provider node name h) = Ok image)
    /\ (getitem object "list" = Ok (PyList []) ->
        fst (ex_save_image provider node name h) = Raise IndexError)
    /\ (forall pre bad post e,
           getitem object "list" = Ok (PyList (pre ++ bad :: post)) ->
           (forall el, In el pre -> exists im, _to_image el = Ok im) ->
           _to_image bad = Raise e ->
           fst (ex_save_image provider node name h) = Raise e).
Proof.
  intros provider node name h object Hobj.
  unfold ex_save_image, bind, request, lift. cbv zeta. rewrite Hobj.
  cbn [fst snd]. split; [reflexivity|]. unfold _to_images. split; [|split].
  - intros first rest image Hlist Hall Hfirst. rewrite Hlist.
    cbn [rbind py_iter comprehension]. rewrite Hfirst. cbn [rbind].
    assert (Hrest : exists ims, comprehension _to_image rest = Ok ims).
    { clear Hlist Hfirst. induction rest as [|el rest IH]; [exists []; reflexivity|].
      destruct (Hall el (or_intror (or_introl eq_refl))) as [im Him].
      destruct IH as [ims Hims].
      { intros x [<-|Hx]; apply Hall; [left; reflexivity|right; right; exact Hx]. }
      exists (im :: ims). cbn [comprehension]. rewrite Him. cbn [rbind].
      rewrite Hims. reflexivity. }
    destruct Hrest as [ims ->]. reflexivity.
  - intros Hlist. rewrite Hlist. reflexivity.
  - intros pre bad post e Hlist Hpre Hbad. rewrite Hlist.
    cbn [rbind py_iter].
    rewrite (comprehension_raises _to_image pre post bad e Hpre Hbad).
    reflexivity.
Qed.

Lemma ex_save_image_spec_witness :
  fst (ex_save_image
         (scripted [Ok (envelope [ PyDict [("id", PyInt 62); ("friendlyName", PyStr "golden")] ])])
         (mkNode (PyInt 7) (PyStr "web") RUNNING [] [] []) (PyStr "golden") [])
  = Ok (mkNodeImage (PyInt 62) (PyStr "golden"))
  /\ fst (ex_save_image (scripted [Ok (envelope [])])
            (mkNode (PyInt 7) (PyStr "web") RUNNING [] [] []) (PyStr "golden") [])
     = Raise IndexError
  /\ fst (ex_save_image
            (scripted [Ok (envelope [ PyDict [("id", PyInt 62); ("friendlyName", PyStr "golden")];
                                      PyDict [("id", PyInt 63)] ])])
            (mkNode (PyInt 7) (PyStr "web") RUNNING [] [] []) (PyStr "golden") [])
     = Raise (KeyError (PyStr "friendlyName")).
Proof.
  split; [|split].
  - pose proof (ex_save_image_spec
                  (scripted [Ok (envelope [ PyDict [("id", PyInt 62); ("friendlyName", PyStr "golden")] ])])
                  (mkNode (PyInt 7) (PyStr "web") RUNNING [] [] []) (PyStr "golden") [] _ eq_refl)
      as (_ & H & _).
    eapply H; [reflexivity| |reflexivity].
    intros el [<-|[]]. eexists. reflexivity.
  - pose proof (ex_save_image_spec (scripted [Ok (envelope [])])
                  (mkNode (PyInt 7) (PyStr "web") RUNNING [] [] []) (PyStr "golden") [] _ eq_refl)
      as (_ & _ & H & _).
    apply H. reflexivity.
  - pose proof (ex_save_image_spec
                  (scripted [Ok (envelope [ PyDict [("id", PyInt 62); ("friendlyName", PyStr "golden")];
                                            PyDict [("id", PyInt 63)] ])])
                  (mkNode (PyInt 7) (PyStr "web") RUNNING [] [] []) (PyStr "golden") [] _ eq_refl)
      as (_ & _ & _ & H).
    eapply (H [PyDict [("id", PyInt 62); ("friendlyName", PyStr "golden")]]
              (PyDict [("id", PyInt 63)]) []);
      [reflexivity| |reflexivity].
    intros el [<-|[]]. eexists. reflexivity.
Defined.

(** X22: [list_images] and [list_locations] each make one request and map
    the object of the answer; [list_images] filters by [datacenter] exactly
    when a location is given. *)
Theorem list_images_locations_requests :
  forall (provider : history -> result value) (location : option value)
         (h : history),
    (exists params,
        snd (list_images provider location h)
        = Request "/api/grid/image/list" params "GET" :: h
        /\ dict_lookup "datacenter" params = location
        /\ (forall k, k <> "datacenter" -> dict_lookup k params = None)
        /\ fst (list_images provider location h)
           = rbind (provider (Request "/api/grid/image/list" params "GET" :: h))
                   _to_images)
    /\ snd (list_locations provider h)
       = Request "/api/common/lookup/list"
           [("lookup", PyStr "ip.datacenter")] "GET" :: h
    /\ fst (list_locations provider h)
       = rbind (provider (Request "/api/common/lookup/list"
                            [("lookup", PyStr "ip.datacenter")] "GET" :: h))
               _to_locations.
Proof.
  intros provider location h. split; [|split].
  - unfold list_images, bind, request, lift. cbv zeta.
    match goal with
    | |- context [Request "/api/grid/image/list" ?p "GET"] => exists p
    end.
    destruct (provider _) as [object|e]; cbn [fst snd rbind];
      (split; [reflexivity|]); (split; [destruct location; reflexivity|]);
      (split; [|reflexivity]);
      intros k Hk; destruct location; cbn;
      try reflexivity;
      destruct (String.eqb_spec k "datacenter"); try contradiction; reflexivity.
  - unfold list_locations, bind, request, lift.
    destruct (provider _); reflexivity.
  - unfold list_locations, bind, request, lift.
    destruct (provider _); reflexivity.
Qed.

(** ** What [create_node] can raise *)

Lemma to_node_lookup_error (element password : value) :
  raises_lookup_error (_to_node element password).
Proof.
  unfold _to_node, _get_ip, _get_id.
  apply rbind_lookup_error.
  { intros e He. destruct (get_state_total element) as [st Hst]. congruence. }
  intros st.
  apply rbind_lookup_error.
  { apply rbind_lookup_error; [apply get_lookup_error|intros ?; apply get_lookup_error]. }
  intros ip.
  apply rbind_lookup_error; [apply get_lookup_error|intros i].
  apply rbind_lookup_error; [apply getitem_lookup_error|intros nm].
  apply rbind_lookup_error; [apply get_lookup_error|intros ram].
  apply rbind_lookup_error; [apply get_lookup_error|intros r].
  apply rbind_lookup_error; [apply getitem_lookup_error|intros sb].
  intros e. discriminate.
Qed.

Lemma comprehension_lookup_error {A B} (f : A -> result B) (els : list A) :
  (forall el, raises_lookup_error (f el)) ->
  raises_lookup_error (comprehension f els).
Proof.
  intros Hf. induction els as [|el rest IH]; simpl; [discriminate|].
  apply rbind_lookup_error; [apply Hf|intros x].
  apply rbind_lookup_error; [exact IH|intros xs]. discriminate.
Qed.

Lemma to_nodes_lookup_error (res : value) (m : pydict) :
  raises_lookup_error (to_nodes res m).
Proof.
  unfold to_nodes.
  apply rbind_lookup_error; [apply getitem_lookup_error|intros servers].
  apply rbind_lookup_error; [apply py_iter_lookup_error|intros els].
  apply comprehension_lookup_error. intros el.
  apply rbind_lookup_error; [apply get_lookup_error|intros el_id].
  apply rbind_lookup_error; [|intros pw; apply to_node_lookup_error].
  unfold pydict_get. intros e. destruct (hashable el_id); [discriminate|].
  intros [= <-]. reflexivity.
Qed.

Lemma first_match_lookup_error (node : Node) (nodes : list Node) :
  raises_lookup_error (first_match node nodes).
Proof.
  induction nodes as [|i rest IH]; simpl; [discriminate|].
  apply rbind_lookup_error.
  - unfold matches, list_getitem0. intros e.
    destruct (public_ip i); [intros [= <-]; reflexivity|].
    destruct (public_ip node); [intros [= <-]; reflexivity|discriminate].
  - intros [|]; [discriminate|exact IH].
Qed.

Lemma provider_raised_extend (provider : history -> result value)
    (pre h0 h' : history) (e : exn) :
  provider_raised provider (pre ++ h0) h' e ->
  provider_raised provider h0 h' e.
Proof.
  intros (path & params & method & made & -> & Hp).
  exists path, params, method, (made ++ pre)%list.
  split; [rewrite <- app_assoc; reflexivity|exact Hp].
Qed.

Lemma list_nodes_history (provider : history -> result value)
    (h h1 : history) (r : result (list Node)) :
  list_nodes provider h = (r, h1) ->
  h1 = after_server_list h \/ h1 = after_password_list h.
Proof.
  intros Hrun.
  destruct (provider (after_server_list h)) as [res|e] eqn:Hres.
  - rewrite (list_nodes_run provider h res Hres) in Hrun. right.
    apply (f_equal snd) in Hrun.
    destruct (rbind _ fill_passwords_map) as [m|e];
      [|destruct (is_InvalidCredsError e)]; symmetry; exact Hrun.
  - unfold list_nodes, bind, _server_list, request in Hrun.
    change (Request "/api/grid/server/list" [] "GET" :: h)
      with (after_server_list h) in Hrun.
    rewrite Hres in Hrun.
    apply (f_equal snd) in Hrun. cbn [snd] in Hrun. left. symmetry. exact Hrun.
Qed.

Lemma list_nodes_raises (provider : history -> result value) (h h' : history)
    (e : exn) :
  list_nodes provider h = (Raise e, h') ->
  lookup_error e = true \/ provider_raised provider h h' e.
Proof.
  intros Hrun.
  destruct (provider (after_server_list h)) as [res|e1] eqn:Hres.
  - rewrite (list_nodes_run provider h res Hres) in Hrun.
    destruct (provider (after_password_list h)) as [passwords|e2] eqn:Hpw;
      cbn [rbind] in Hrun.
    + pose proof (fill_passwords_map_lookup_error passwords) as Hfill.
      destruct (fill_passwords_map passwords) as [m|e3].
      * apply (f_equal fst) in Hrun; cbn [fst] in Hrun. left.
        eapply to_nodes_lookup_error. exact Hrun.
      * specialize (Hfill e3 eq_refl).
        destruct (is_InvalidCredsError e3) eqn:Hic;
          [destruct e3; discriminate|].
        apply (f_equal fst) in Hrun; cbn [fst] in Hrun.
        injection Hrun as <-. left. exact Hfill.
    + destruct (is_InvalidCredsError e2).
      * apply (f_equal fst) in Hrun; cbn [fst] in Hrun. left.
        eapply to_nodes_lookup_error. exact Hrun.
      * pose proof (f_equal snd Hrun) as Hh. cbn [snd] in Hh. subst h'.
        apply (f_equal fst) in Hrun; cbn [fst] in Hrun.
        injection Hrun as <-. right.
        exists "/api/support/password/list", [], "GET",
               [Request "/api/grid/server/list" [] "GET"].
        split; [reflexivity|exact Hpw].
  - unfold list_nodes, bind, _server_list, request in Hrun.
    change (Request "/api/grid/server/list" [] "GET" :: h)
      with (after_server_list h) in Hrun.
    rewrite Hres in Hrun.
    pose proof (f_equal snd Hrun) as Hh. cbn [snd] in Hh. subst h'.
    apply (f_equal fst) in Hrun; cbn [fst] in Hrun.
    injection Hrun as <-. right.
    exists "/api/grid/server/list", [], "GET", [].
    split; [reflexivity|exact Hres].
Qed.

Lemma getitem0_lookup_error (v : value) : raises_lookup_error (getitem0 v).
Proof.
  intros e. destruct v as [| | | |[|]|[|]|]; simpl;
    try discriminate; intros [= <-]; reflexivity.
Qed.

Lemma get_first_ip_raises (provider : history -> result value)
    (location : option value) (h h' : history) (e : exn) :
  _get_first_ip provider location h = (Raise e, h') ->
  lookup_error e = true
  \/ e = LibcloudError "No public unassigned IPs left"
  \/ provider_raised provider h h' e.
Proof.
  intros Hrun. pose proof (get_first_ip_history _ _ _ _ _ Hrun) as Hh.
  revert Hrun. unfold _get_first_ip, bind, request, lift. cbv zeta.
  destruct (provider _) as [object|e1] eqn:Hip; intros Hrun;
    apply (f_equal fst) in Hrun; cbn [fst] in Hrun.
  - destruct (getitem object "list") as [ips|e2] eqn:Hlist; cbn [rbind] in Hrun.
    + destruct (truth ips).
      * left. revert Hrun. generalize e.
        change (raises_lookup_error
                  (rbind (getitem0 ips) (fun first => getitem first "ip"))).
        apply rbind_lookup_error; [apply getitem0_lookup_error|intros first].
        apply getitem_lookup_error.
      * injection Hrun as <-. right. left. reflexivity.
    + injection Hrun as <-. left. eapply getitem_lookup_error. exact Hlist.
  - injection Hrun as <-. right. right. subst h'.
    exists "/api/grid/ip/list", (ip_list_params location), "GET", [].
    split; [reflexivity|exact Hip].
Qed.

Lemma ex_create_node_nowait_raises (provider : history -> result value)
    (kwargs : create_kwargs) (h h' : history) (e : exn) :
  ex_create_node_nowait provider kwargs h = (Raise e, h') ->
  lookup_error e = true
  \/ e = LibcloudError "No public unassigned IPs left"
  \/ provider_raised provider h h' e.
Proof.
  unfold ex_create_node_nowait, bind.
  destruct (_get_first_ip provider (kw_location kwargs) h) as [[ip|e1] h1] eqn:Hip.
  - apply get_first_ip_history in Hip. subst h1.
    cbv zeta. unfold request, lift.
    destruct (provider _) as [reply|e5] eqn:Hadd; intros Hrun;
      pose proof (f_equal snd Hrun) as Hh; cbn [snd] in Hh;
      apply (f_equal fst) in Hrun; cbn [fst] in Hrun.
    + left. revert Hrun. generalize e.
      change (raises_lookup_error
                (rbind (getitem reply "list") (fun servers =>
                 rbind (getitem0 servers) (fun first =>
                 _to_node first PyNone)))).
      apply rbind_lookup_error; [apply getitem_lookup_error|intros servers].
      apply rbind_lookup_error; [apply getitem0_lookup_error|intros first].
      apply to_node_lookup_error.
    + injection Hrun as <-. right. right. subst h'.
      exists "/api/grid/server/add", (server_add_params kwargs ip), "POST",
             [Request "/api/grid/ip/list"
                      (ip_list_params (kw_location kwargs)) "GET"].
      split; [reflexivity|exact Hadd].
  - intros Hrun. pose proof (f_equal snd Hrun) as Hh. cbn [snd] in Hh. subst h1.
    apply (f_equal fst) in Hrun. cbn [fst] in Hrun.
    injection Hrun as <-. eapply get_first_ip_raises. exact Hip.
Qed.

Lemma ex_create_node_nowait_history (provider : history -> result value)
    (kwargs : create_kwargs) (h h1 : history) (r : result Node) :
  ex_create_node_nowait provider kwargs h = (r, h1) ->
  exists made, h1 = (made ++ h)%list.
Proof.
  unfold ex_create_node_nowait, bind, lift.
  destruct (_get_first_ip provider (kw_location kwargs) h) as [[ip|e] h'] eqn:Hip;
    apply get_first_ip_history in Hip; subst h'.
  - cbv zeta. unfold request.
    destruct (provider _) as [object|e]; intros H;
      apply (f_equal snd) in H; cbn [snd] in H; subst h1;
      exists [Request "/api/grid/server/add" (server_add_params kwargs ip) "POST";
              Request "/api/grid/ip/list"
                      (ip_list_params (kw_location kwargs)) "GET"];
      reflexivity.
  - intros H. apply (f_equal snd) in H. cbn [snd] in H. subst h1.
    exists [Request "/api/grid/ip/list"
                    (ip_list_params (kw_location kwargs)) "GET"].
    reflexivity.
Qed.

Lemma wait_for_id_raises (provider : history -> result value)
    (str_Node : Node -> string) (node : Node) (fuel : nat) :
  forall (w : Z) (h h' : history) (e : exn),
    wait_for_id provider str_Node fuel node w h = Some (Raise e, h') ->
    lookup_error e = true \/ provider_raised provider h h' e.
Proof.
  induction fuel as [|fuel IH]; intros w h h' e; cbn [wait_for_id].
  - destruct (is_None (id node) && (w <? timeout)); [discriminate|].
    unfold builtin_id_is_None. discriminate.
  - destruct (is_None (id node) && (w <? timeout));
      [|unfold builtin_id_is_None; discriminate].
    destruct (list_nodes provider h) as [[nodes|e1] h1] eqn:Hlist.
    + pose proof (first_match_lookup_error node nodes) as Hm.
      destruct (first_match node nodes) as [[i|]|e2].
      * discriminate.
      * cbn [sleep]. intros Hrun.
        apply IH in Hrun as [Hl|Hp]; [left; exact Hl|right].
        apply list_nodes_history in Hlist as [->| ->].
        -- apply (provider_raised_extend provider
                    [Sleep interval; Request "/api/grid/server/list" [] "GET"]).
           exact Hp.
        -- apply (provider_raised_extend provider
                    [Sleep interval;
                     Request "/api/support/password/list" [] "GET";
                     Request "/api/grid/server/list" [] "GET"]).
           exact Hp.
      * intros Hrun. injection Hrun as Hrun _. subst e2.
        left. apply Hm. reflexivity.
    + intros Hrun. injection Hrun as Hrun Hh. subst e1 h1.
      eapply list_nodes_raises. exact Hlist.
Qed.

(** X23: whatever [create_node] raises is an error of a lookup on the
    provider's data ([KeyError], [IndexError], [TypeError] or
    [AttributeError]), the error for want of an unassigned address, or the
    error the provider raised for a request of this run, which is then the
    last event of the run.  In particular an [Exception], such as the one
    for an identifier that was not allocated in time, comes out of
    [create_node] only when the provider raised it for that request:
    [create_node] never raises it itself. *)
Theorem create_node_raises :
  forall (provider : history -> result value) (str_Node : Node -> string)
         (kwargs : create_kwargs) (h0 h' : history) (e : exn),
    create_node provider str_Node kwargs h0 = Some (Raise e, h') ->
    (lookup_error e = true
     \/ e = LibcloudError "No public unassigned IPs left"
     \/ provider_raised provider h0 h' e)
    /\ (forall text, e = PyException text ->
                     provider_raised provider h0 h' e).
Proof.
  intros provider str_Node kwargs h0 h' e Hrun.
  assert (Hcases : lookup_error e = true
                   \/ e = LibcloudError "No public unassigned IPs left"
                   \/ provider_raised provider h0 h' e).
  { unfold create_node in Hrun.
    destruct (ex_create_node_nowait provider kwargs h0)
      as [[node|e1] h1] eqn:Hcreate.
    - apply wait_for_id_raises in Hrun as [Hl|Hp]; [left; exact Hl|].
      right. right.
      apply ex_create_node_nowait_history in Hcreate as [made ->].
      apply (provider_raised_extend provider made). exact Hp.
    - injection Hrun as Hrun Hh. subst e1 h1.
      eapply ex_create_node_nowait_raises. exact Hcreate. }
  split; [exact Hcases|].
  intros text ->.
  destruct Hcases as [Hl|[Hn|Hp]]; [discriminate|discriminate|exact Hp].
Qed.

Lemma create_node_raises_witness :
  exists h',
    create_node
      (scripted [ Ok (envelope [PyDict [("ip", PyStr "208.113.0.7")]]);
                  Raise (PyException (PyStr "Server limit reached")) ])
      (fun _ => "") sample_kwargs []
    = Some (Raise (PyException (PyStr "Server limit reached")), h')
    /\ provider_raised
         (scripted [ Ok (envelope [PyDict [("ip", PyStr "208.113.0.7")]]);
                     Raise (PyException (PyStr "Server limit reached")) ])
         [] h' (PyException (PyStr "Server limit reached")).
Proof.
  eexists. split; [vm_compute; reflexivity|].
  eapply (create_node_raises
            (scripted [ Ok (envelope [PyDict [("ip", PyStr "208.113.0.7")]]);
                        Raise (PyException (PyStr "Server limit reached")) ])
            (fun _ => "") sample_kwargs []);
    [vm_compute; reflexivity|reflexivity].
Defined.
